(** * gnss_analyzer: the NMEA sentence parser (core/src/NMEAParser.cpp)

    A shallow embedding of [NMEAParser::convertToDecimalDegrees],
    [DataType], [parseGGA], [parseGSV] and [parseLine], together with the
    parts of Qt they call ([QString::toInt], [QString::toDouble],
    [QString::mid], [QString::split], [QTime::isValid]), and the properties
    of the parser that the specification states.

    Conventions.
    - A [QString] is a [string]; NMEA sentences are ASCII.
    - A C++ [int] is a [Z]; the only narrowing conversion of the parser
      (the [u_int8_t] satellite count) is written out with [Z.modulo].
    - A C++ [double] is an IEEE 754 binary64 value, [spec_float] with
      [prec = 53] and [emax = 1024]; arithmetic and comparisons are the
      ones of [SpecFloat], rounding to nearest even.
    - A function that throws returns a [result]; a function that mutates
      the record it is given runs in the monad [Parser]. *)

From stdpp Require Import gmap.
From Stdlib Require Import ZArith String Ascii List Bool Lia QArith Qabs.
From Stdlib Require Import DecimalString.
From Stdlib Require Import Floats.SpecFloat.
Import ListNotations.

Local Open Scope string_scope.
Local Open Scope Z_scope.

(* ===================================================================== *)
(** ** IEEE 754 binary64 *)
(* ===================================================================== *)

Module Double.

Definition prec : Z := 53.
Definition emax : Z := 1024.

Definition double := spec_float.

Definition zero : double := S754_zero false.
Definition nan : double := S754_nan.
Definition inf : double := S754_infinity false.

Definition add (x y : double) : double := SFadd prec emax x y.
Definition sub (x y : double) : double := SFsub prec emax x y.
Definition div (x y : double) : double := SFdiv prec emax x y.
Definition opp (x : double) : double := SFopp x.

(** The C++ comparison operators on doubles: every comparison with a
    NaN is false. *)
Definition eqb (x y : double) : bool := SFeqb x y.
Definition ltb (x y : double) : bool := SFltb x y.
Definition leb (x y : double) : bool := SFleb x y.
Definition gtb (x y : double) : bool := SFltb y x.
Definition geb (x y : double) : bool := SFleb y x.

(** Conversion of an integer to double (exact for a 32-bit int). *)
Definition of_int (z : Z) : double := binary_normalize prec emax z 0 false.

(** The binary64 value nearest to [(-1)^neg * m * 10^e10], ties to even:
    the value a correctly rounding decimal-to-binary conversion returns
    (an infinity on overflow, a zero on underflow). *)
Definition of_decimal (neg : bool) (m : Z) (e10 : Z) : double :=
  match m with
  | Zpos p =>
      if 0 <=? e10
      then binary_normalize prec emax
             ((if neg then Z.opp else id) (m * 10 ^ e10)) 0 false
      else match 10 ^ (- e10) with
           | Zpos q => div (S754_finite neg p 0) (S754_finite false q 0)
           | _ => nan
           end
  | _ => S754_zero neg
  end.

Definition is_nan (x : double) : bool :=
  match x with S754_nan => true | _ => false end.

Definition is_finite (x : double) : bool :=
  match x with S754_zero _ | S754_finite _ _ _ => true | _ => false end.

(** The rational number a finite double stands for (0 for the others). *)
Definition to_Q (x : double) : Q :=
  match x with
  | S754_finite s m e =>
      let n := if s then Zneg m else Zpos m in
      if 0 <=? e then inject_Z (n * 2 ^ e)
      else Qmake n (Z.to_pos (2 ^ (- e)))
  | _ => 0%Q
  end.

End Double.

Abbreviation double := Double.double.

(** [-qInf()] *)
Definition neg_qInf : double := S754_infinity true.

(* ===================================================================== *)
(** ** The parts of Qt the parser calls *)
(* ===================================================================== *)

Module Qt.

Definition code (c : ascii) : Z := Z.of_N (N_of_ascii c).

Definition is_digit (c : ascii) : bool := (48 <=? code c) && (code c <=? 57).

Definition digit_val (c : ascii) : Z := code c - 48.

(** [QChar::isSpace] on the Latin-1 range: TAB, LF, VT, FF, CR, space,
    NEL and the no-break space. *)
Definition isSpace (c : ascii) : bool :=
  let n := code c in
  (n =? 32) || ((9 <=? n) && (n <=? 13)) || (n =? 133) || (n =? 160).

Definition toLower (c : ascii) : ascii :=
  let n := code c in
  if (65 <=? n) && (n <=? 90) then ascii_of_N (Z.to_N (n + 32)) else c.

Fixpoint skip_spaces (l : list ascii) : list ascii :=
  match l with
  | c :: r => if isSpace c then skip_spaces r else l
  | [] => []
  end.

(** Leading and trailing white space is skipped by the numeric
    conversions. *)
Definition trimmed (s : string) : list ascii :=
  rev (skip_spaces (rev (skip_spaces (list_ascii_of_string s)))).

Fixpoint span_digits (l : list ascii) : list ascii * list ascii :=
  match l with
  | c :: r =>
      if is_digit c
      then let '(ds, rest) := span_digits r in (c :: ds, rest)
      else ([], l)
  | [] => ([], [])
  end.

Definition digits_value (ds : list ascii) : Z :=
  fold_left (fun acc c => 10 * acc + digit_val c) ds 0.

Definition parse_sign (l : list ascii) : bool * list ascii :=
  match l with
  | "+"%char :: r => (false, r)
  | "-"%char :: r => (true, r)
  | _ => (false, l)
  end.

Definition INT_MIN : Z := - 2 ^ 31.
Definition INT_MAX : Z := 2 ^ 31 - 1.

(** [QString::toInt(bool *ok, int base = 10)]: white space, an optional
    sign, decimal digits, white space, and nothing else; the value must
    fit an [int].  On failure the value is 0 and [ok] is false. *)
Definition toInt (s : string) : Z * bool :=
  let '(neg, l1) := parse_sign (trimmed s) in
  let '(ds, rest) := span_digits l1 in
  match ds, rest with
  | _ :: _, [] =>
      let v := if neg then - digits_value ds else digits_value ds in
      if (INT_MIN <=? v) && (v <=? INT_MAX) then (v, true) else (0, false)
  | _, _ => (0, false)
  end.

(** The decimal grammar of [QString::toDouble]:
    [sign] digits [. digits] [e [sign] digits], with at least one digit
    in the significand.  Returns the sign, the significand read as an
    integer, and the decimal exponent. *)
Definition parse_decimal (l : list ascii) : option (bool * Z * Z) :=
  let '(neg, l1) := parse_sign l in
  let '(ip, l2) := span_digits l1 in
  let '(fp, l3) :=
    match l2 with
    | "."%char :: r => span_digits r
    | _ => ([], l2)
    end in
  match (ip ++ fp)%list with
  | [] => None
  | _ :: _ =>
      let m := digits_value (ip ++ fp)%list in
      let scale := Z.of_nat (List.length fp) in
      match l3 with
      | [] => Some (neg, m, - scale)
      | "e"%char :: r =>
          let '(eneg, r1) := parse_sign r in
          let '(ed, r2) := span_digits r1 in
          match ed, r2 with
          | _ :: _, [] =>
              let e := if eneg then - digits_value ed else digits_value ed in
              Some (neg, m, e - scale)
          | _, _ => None
          end
      | _ => None
      end
  end.

(** [QString::toDouble(bool *ok)], always in the C locale: white space is
    skipped, letters are lower-cased, "nan", "inf", "+inf" and "-inf" are
    accepted, and any other text must follow the decimal grammar and is
    rounded to the nearest double.  Overflow returns an infinity with
    [ok] false; underflow and malformed text return 0.0 with [ok]
    false. *)
Definition toDouble (s : string) : double * bool :=
  let l := map toLower (trimmed s) in
  let text := string_of_list_ascii l in
  if String.eqb text "nan" then (Double.nan, true)
  else if String.eqb text "inf" || String.eqb text "+inf"
  then (Double.inf, true)
  else if String.eqb text "-inf" then (neg_qInf, true)
  else
    match parse_decimal l with
    | None => (Double.zero, false)
    | Some (neg, m, e10) =>
        let d := Double.of_decimal neg m e10 in
        match d with
        | S754_infinity _ => (d, false)
        | S754_zero _ => if m =? 0 then (d, true) else (Double.zero, false)
        | _ => (d, true)
        end
    end.

(** [QString::size], [QString::mid], [QString::left],
    [QString::startsWith]. *)
Definition size (s : string) : Z := Z.of_nat (String.length s).

Definition mid (s : string) (pos n : nat) : string := String.substring pos n s.

Definition mid_from (s : string) (pos : nat) : string :=
  String.substring pos (String.length s - pos) s.

Definition left (s : string) (n : nat) : string := String.substring 0 n s.

Definition startsWith (s p : string) : bool := String.prefix p s.

(** [QString::split(",")], empty parts kept: a line with [n] commas has
    [n + 1] parts. *)
Fixpoint split_comma (s : string) : list string :=
  match s with
  | EmptyString => [EmptyString]
  | String c r =>
      if Ascii.eqb c ","%char then EmptyString :: split_comma r
      else match split_comma r with
           | h :: t => String c h :: t
           | [] => [String c EmptyString]
           end
  end.

(** [QString::number(int)], as [QString::arg(int)] prints it. *)
Definition number (z : Z) : string := NilZero.string_of_int (Z.to_int z).

(** [QTime(h, m, s)] and [QTime::isValid]. *)
Record QTime := mkQTime { hour : Z; minute : Z; second : Z }.

Definition isValid (t : QTime) : bool :=
  (0 <=? hour t) && (hour t <? 24) &&
  (0 <=? minute t) && (minute t <? 60) &&
  (0 <=? second t) && (second t <? 60).

(** A calendar date (its Julian day number); [QDate::currentDate()] is an
    input of the parser. *)
Definition QDate := Z.

(** A [QDateTime] built with [Qt::UTC]. *)
Record QDateTime := mkQDateTime { date : QDate; time : QTime }.

End Qt.

(* ===================================================================== *)
(** ** GNSSDataModel.hpp *)
(* ===================================================================== *)

Inductive DATAType := Unknown | GGA | GSV.

Record SATInfo := mkSATInfo {
  elevation : double;
  azimuth : double;
  snr : double
}.

(** [struct GNSSData]; [satellites] is a [u_int8_t], a null [QDateTime] is
    [None]. *)
Record GNSSData := mkGNSSData {
  satellites : Z;
  latitude : double;
  longitude : double;
  altitude : double;
  snrAvg : double;
  hdop : double;
  vdop : double;
  satMap : gmap Z SATInfo;
  fixType : string;
  timestamp : option Qt.QDateTime
}.

(** A default-constructed record. *)
Definition GNSSData_default : GNSSData :=
  {| satellites := 0; latitude := Double.zero; longitude := Double.zero;
     altitude := Double.zero; snrAvg := Double.zero; hdop := Double.zero;
     vdop := Double.zero; satMap := ∅; fixType := "No fix";
     timestamp := None |}.

(** Conversion of an [int] to [u_int8_t]. *)
Definition to_u8 (z : Z) : Z := z mod 256.

(* ===================================================================== *)
(** ** NMEAException.hpp *)
(* ===================================================================== *)

Inductive NMEAException :=
| ParsingError (msg : string)
| InvalidDataError (msg : string).

(** [std::exception::what]: each class prepends its prefix. *)
Definition what (e : NMEAException) : string :=
  match e with
  | ParsingError msg => "ParsingError: " ++ msg
  | InvalidDataError msg => "InvalidData: " ++ msg
  end.

(** The two kinds of failure of the specification. *)
Inductive ErrorKind := Structural | Semantic.

Definition kind (e : NMEAException) : ErrorKind :=
  match e with
  | ParsingError _ => Structural
  | InvalidDataError _ => Semantic
  end.

Inductive result (A : Type) : Type :=
| Ok (a : A)
| Throw (e : NMEAException).
Arguments Ok {A} a.
Arguments Throw {A} e.

Definition raises {A : Type} (r : result A) (k : ErrorKind) : Prop :=
  exists e, r = Throw e /\ kind e = k.

Definition returns {A : Type} (r : result A) : Prop :=
  exists a, r = Ok a.

(** Code that mutates the record it received by reference and may throw:
    the record as it is when the code returns or throws, and the outcome. *)
Definition Parser (A : Type) : Type := GNSSData -> GNSSData * result A.

Definition ret {A : Type} (a : A) : Parser A := fun d => (d, Ok a).

Definition throw {A : Type} (e : NMEAException) : Parser A :=
  fun d => (d, Throw e).

Definition bind {A B : Type} (c : Parser A) (k : A -> Parser B) : Parser B :=
  fun d => match c d with
           | (d', Ok a) => k a d'
           | (d', Throw e) => (d', Throw e)
           end.

Definition get : Parser GNSSData := fun d => (d, Ok d).

Definition modify (f : GNSSData -> GNSSData) : Parser unit :=
  fun d => (f d, Ok tt).

(** A call of a function that does not touch the record. *)
Definition call {A : Type} (r : result A) : Parser A := fun d => (d, r).

Definition when (b : bool) (c : Parser unit) : Parser unit :=
  if b then c else ret tt.

Notation "'let!' x ':=' c 'in' k" := (bind c (fun x => k))
  (at level 10, x name, c at level 100, k at level 200, only parsing).
Notation "c >> k" := (bind c (fun _ => k))
  (at level 100, k at level 200, right associativity, only parsing).

Definition set_satellites (v : Z) (d : GNSSData) : GNSSData :=
  {| satellites := v; latitude := latitude d; longitude := longitude d;
     altitude := altitude d; snrAvg := snrAvg d; hdop := hdop d;
     vdop := vdop d; satMap := satMap d; fixType := fixType d;
     timestamp := timestamp d |}.

Definition set_latitude (v : double) (d : GNSSData) : GNSSData :=
  {| satellites := satellites d; latitude := v; longitude := longitude d;
     altitude := altitude d; snrAvg := snrAvg d; hdop := hdop d;
     vdop := vdop d; satMap := satMap d; fixType := fixType d;
     timestamp := timestamp d |}.

Definition set_longitude (v : double) (d : GNSSData) : GNSSData :=
  {| satellites := satellites d; latitude := latitude d; longitude := v;
     altitude := altitude d; snrAvg := snrAvg d; hdop := hdop d;
     vdop := vdop d; satMap := satMap d; fixType := fixType d;
     timestamp := timestamp d |}.

Definition set_altitude (v : double) (d : GNSSData) : GNSSData :=
  {| satellites := satellites d; latitude := latitude d;
     longitude := longitude d; altitude := v; snrAvg := snrAvg d;
     hdop := hdop d; vdop := vdop d; satMap := satMap d;
     fixType := fixType d; timestamp := timestamp d |}.

Definition set_hdop (v : double) (d : GNSSData) : GNSSData :=
  {| satellites := satellites d; latitude := latitude d;
     longitude := longitude d; altitude := altitude d; snrAvg := snrAvg d;
     hdop := v; vdop := vdop d; satMap := satMap d; fixType := fixType d;
     timestamp := timestamp d |}.

Definition set_fixType (v : string) (d : GNSSData) : GNSSData :=
  {| satellites := satellites d; latitude := latitude d;
     longitude := longitude d; altitude := altitude d; snrAvg := snrAvg d;
     hdop := hdop d; vdop := vdop d; satMap := satMap d; fixType := v;
     timestamp := timestamp d |}.

Definition set_timestamp (v : Qt.QDateTime) (d : GNSSData) : GNSSData :=
  {| satellites := satellites d; latitude := latitude d;
     longitude := longitude d; altitude := altitude d; snrAvg := snrAvg d;
     hdop := hdop d; vdop := vdop d; satMap := satMap d;
     fixType := fixType d; timestamp := Some v |}.

(* ===================================================================== *)
(** ** NMEAParser.cpp *)
(* ===================================================================== *)

(** The two file-scope statics of NMEAParser.cpp. *)
Record GSVSession := mkGSVSession {
  gsvTempSatellites : gmap Z SATInfo;
  expectedGSVParts : Z
}.

Definition GSVSession_initial : GSVSession :=
  {| gsvTempSatellites := ∅; expectedGSVParts := 0 |}.

Module NMEAParser.

(** [tokens.size()] and [tokens[i]]; every index the parser reads is
    below the size it has checked. *)
Definition size (tokens : list string) : Z := Z.of_nat (List.length tokens).

Definition tok (tokens : list string) (i : Z) : string :=
  nth (Z.to_nat i) tokens EmptyString.

Definition isEmpty (s : string) : bool := Qt.size s =? 0.

Definition degDigits (direction : string) : nat :=
  if String.eqb direction "N" || String.eqb direction "S" then 2%nat else 3%nat.

Definition convertToDecimalDegrees (value direction : string) : result double :=
  if isEmpty value || isEmpty direction then
    Throw (InvalidDataError "InvalidData: Empty latitude/longitude or direction")
  else
    let degDigits := degDigits direction in
    if Qt.size value <? Z.of_nat degDigits then
      Throw (InvalidDataError "InvalidData: String too short for degrees")
    else
      let '(degreePart, okDeg) := Qt.toInt (Qt.left value degDigits) in
      let '(minutePart, okMin) := Qt.toDouble (Qt.mid_from value degDigits) in
      if negb okDeg || negb okMin then
        Throw (InvalidDataError "InvalidData: Conversion failed")
      else
        let decimalDegrees :=
          Double.add (Double.of_int degreePart)
                     (Double.div minutePart (Double.of_int 60)) in
        if String.eqb direction "S" || String.eqb direction "W"
        then Ok (Double.opp decimalDegrees)
        else Ok decimalDegrees.

(** The [try { ... } catch (const NMEAException &e) { qWarning() ...;
    throw; }] around both parsers logs and rethrows: the outcome of the
    body is the outcome of the function. *)
Definition try_log_rethrow {A : Type} (body : A) : A := body.

(** parseGGA, one definition per commented section of its body. *)

Definition gga_check_size (tokens : list string) : Parser unit :=
  when (size tokens <? 10)
    (throw (ParsingError "GGA frame too short: expected >=10 fields")).

(** [// --- UTC ---] *)
Definition gga_utc (currentDate : Qt.QDate) (tokens : list string)
  : Parser unit :=
  let timeStr := tok tokens 1 in
  when (Qt.size timeStr <? 6)
    (throw (InvalidDataError "Invalid UTC time in GGA frame")) >>
  let hour := fst (Qt.toInt (Qt.mid timeStr 0 2)) in
  let minute := fst (Qt.toInt (Qt.mid timeStr 2 2)) in
  let second := fst (Qt.toInt (Qt.mid timeStr 4 2)) in
  let time := Qt.mkQTime hour minute second in
  when (Qt.isValid time)
    (modify (set_timestamp (Qt.mkQDateTime currentDate time))).

(** [// --- Latitude ---] *)
Definition gga_latitude (tokens : list string) : Parser unit :=
  let! lat := call (convertToDecimalDegrees (tok tokens 2) (tok tokens 3)) in
  modify (set_latitude lat).

(** [// --- Longitude ---] *)
Definition gga_longitude (tokens : list string) : Parser unit :=
  let! lon := call (convertToDecimalDegrees (tok tokens 4) (tok tokens 5)) in
  modify (set_longitude lon) >>
  let! data := get in
  when (Double.eqb (longitude data) neg_qInf)
    (throw (InvalidDataError "Longitude conversion failed")).

(** [// --- Fix type ---] *)
Definition gga_fix_type (tokens : list string) : Parser unit :=
  let fixQuality := fst (Qt.toInt (tok tokens 6)) in
  match fixQuality with
  | 0 => modify (set_fixType "No Fix")
  | 1 => modify (set_fixType "GPS Fix")
  | 2 => modify (set_fixType "DGPS Fix")
  | 4 => modify (set_fixType "RTK Fix")
  | _ => throw (InvalidDataError
                  ("Unknown fix quality code: " ++ Qt.number fixQuality))
  end.

(** [// --- Nb of satellites ---]: the [int] is stored in the
    [u_int8_t] field, and the field is what the test reads. *)
Definition gga_satellites (tokens : list string) : Parser unit :=
  modify (set_satellites (to_u8 (fst (Qt.toInt (tok tokens 7))))) >>
  let! data := get in
  when ((satellites data <? 0) || (50 <? satellites data))
    (throw (InvalidDataError "Number of satellites out of range")).

(** [// --- HDOP ---] *)
Definition gga_hdop (tokens : list string) : Parser unit :=
  modify (set_hdop (fst (Qt.toDouble (tok tokens 8)))) >>
  let! data := get in
  when (Double.leb (hdop data) (Double.of_int 0)
        || Double.gtb (hdop data) (Double.of_int 50))
    (throw (InvalidDataError "HDOP value out of range")).

(** [// --- Altitude ---] *)
Definition gga_altitude (tokens : list string) : Parser unit :=
  modify (set_altitude (fst (Qt.toDouble (tok tokens 9)))) >>
  let! data := get in
  when (Double.ltb (altitude data) (Double.of_int (-500))
        || Double.gtb (altitude data) (Double.of_int 10000))
    (throw (InvalidDataError "Altitude out of realistic bounds")).

Definition parseGGA (currentDate : Qt.QDate) (tokens : list string)
  : Parser unit :=
  try_log_rethrow (
    gga_check_size tokens >>
    gga_utc currentDate tokens >>
    gga_latitude tokens >>
    gga_longitude tokens >>
    gga_fix_type tokens >>
    gga_satellites tokens >>
    gga_hdop tokens >>
    gga_altitude tokens).

(** *** parseGSV *)

Inductive Control := Normal | ContinueLoop | BreakLoop.

(** The body of the [for] statement at index [i].  It opens with the
    test [i + 3 >= tokens.size()] written twice, one [if] inside the
    other, around the [break]. *)
Definition gsv_body (tokens : list string) (i : Z) (sats : gmap Z SATInfo)
  : Control * gmap Z SATInfo :=
  if (size tokens <=? i + 3) && (size tokens <=? i + 3) then (BreakLoop, sats)
  else
    let '(id, okId) := Qt.toInt (tok tokens i) in
    let '(elev, okElev) := Qt.toDouble (tok tokens (i + 1)) in
    let '(azim, okAzim) := Qt.toDouble (tok tokens (i + 2)) in
    let '(snr', okSnr) := Qt.toDouble (tok tokens (i + 3)) in
    if negb okId || (id <=? 0) then (ContinueLoop, sats)
    else
      let info :=
        {| elevation := if okElev then elev else neg_qInf;
           azimuth := if okAzim then azim else neg_qInf;
           snr := if okSnr then snr' else neg_qInf |} in
      (Normal, <[id := info]> sats).

(** The third expression of the [for] statement is [i+4]: it is
    evaluated and its value is dropped, [i] is not assigned. *)
Definition gsv_increment (i : Z) : Z := let _ := i + 4 in i.

Inductive LoopState :=
| Running (i : Z) (sats : gmap Z SATInfo)
| Exited (sats : gmap Z SATInfo).

(** One turn of [for (int i = 4; i+3 < tokens.size(); i+4) { ... }]:
    the test, the body, the third expression. *)
Definition gsv_step (tokens : list string) (st : LoopState) : LoopState :=
  match st with
  | Exited _ => st
  | Running i sats =>
      if i + 3 <? size tokens then
        match gsv_body tokens i sats with
        | (BreakLoop, sats') => Exited sats'
        | (_, sats') => Running (gsv_increment i) sats'
        end
      else Exited sats
  end.

Definition loop_sats (st : LoopState) : gmap Z SATInfo :=
  match st with Running _ sats | Exited sats => sats end.

(** The statics after the part of parseGSV that precedes the loop. *)
Definition gsv_header (tokens : list string) (g : GSVSession) : GSVSession :=
  let totalMsgs := fst (Qt.toInt (tok tokens 1)) in
  let msgNum := fst (Qt.toInt (tok tokens 2)) in
  let totalSats := fst (Qt.toInt (tok tokens 3)) in
  if msgNum =? 1
  then {| gsvTempSatellites := ∅; expectedGSVParts := totalMsgs |}
  else g.

(** The loop after [n] turns. *)
Definition gsv_loop (n : nat) (tokens : list string) (g : GSVSession)
  : LoopState :=
  Nat.iter n (gsv_step tokens)
           (Running 4 (gsvTempSatellites (gsv_header tokens g))).

(** The statics as they are after [n] turns of the loop. *)
Definition gsv_session (n : nat) (tokens : list string) (g : GSVSession)
  : GSVSession :=
  {| gsvTempSatellites := loop_sats (gsv_loop n tokens g);
     expectedGSVParts := expectedGSVParts (gsv_header tokens g) |}.

(** parseGSV, run for at most [fuel] turns of its loop: [None] when the
    loop has not been left by then.  The record is passed and never
    written. *)
Definition parseGSV (fuel : nat) (tokens : list string) (g : GSVSession)
  (data : GNSSData) : option (GSVSession * GNSSData * result unit) :=
  try_log_rethrow (
    if size tokens <? 4 then
      Some (g, data,
            Throw (ParsingError "GSV frame too short: expected >=4 fields"))
    else
      match gsv_loop fuel tokens g with
      | Exited _ => Some (gsv_session fuel tokens g, data, Ok tt)
      | Running _ _ => None
      end).

Definition DataType (line : string) : DATAType :=
  if Qt.startsWith line "$GPGGA" then GGA
  else if Qt.startsWith line "$GPGSV" then GSV
  else Unknown.

Definition parseLine (fuel : nat) (currentDate : Qt.QDate) (line : string)
  (g : GSVSession) (data : GNSSData)
  : option (GSVSession * GNSSData * result unit) :=
  match DataType line with
  | GGA =>
      let parts := Qt.split_comma line in
      let '(data', r) := parseGGA currentDate parts data in
      Some (g, data', r)
  | GSV =>
      let parts := Qt.split_comma line in
      parseGSV fuel parts g data
  | Unknown => Some (g, data, Ok tt)
  end.

End NMEAParser.

(* ===================================================================== *)
(** ** Vocabulary of the statements, and sample inputs *)
(* ===================================================================== *)

Import NMEAParser.

(** [c] leaves the field (or any function of the record) [f] as it was,
    whether it returns or throws. *)
Definition preserves {A X : Type} (f : GNSSData -> X) (c : Parser A) : Prop :=
  forall d, f (fst (c d)) = f d.

(** Every exception [c] throws satisfies [P]. *)
Definition throws_only {A : Type} (P : NMEAException -> Prop) (c : Parser A)
  : Prop :=
  forall d e, snd (c d) = Throw e -> P e.

(** The time of day parseGGA builds from token 1. *)
Definition gga_time (tokens : list string) : Qt.QTime :=
  let timeStr := tok tokens 1 in
  Qt.mkQTime (fst (Qt.toInt (Qt.mid timeStr 0 2)))
             (fst (Qt.toInt (Qt.mid timeStr 2 2)))
             (fst (Qt.toInt (Qt.mid timeStr 4 2))).

(** The three sections after the fix type. *)
Definition gga_tail (tokens : list string) : Parser unit :=
  gga_satellites tokens >> gga_hdop tokens >> gga_altitude tokens.

Definition tail_error (e : NMEAException) : Prop :=
  e = InvalidDataError "Number of satellites out of range" \/
  e = InvalidDataError "HDOP value out of range" \/
  e = InvalidDataError "Altitude out of realistic bounds".

Definition sample_tokens : list string :=
  ["$GPGGA"; "123519"; "4807.038"; "N"; "11131.000"; "E"; "1"; "08"; "0.9";
   "545.4"; "M"; ""; "*47"].

Definition hour_group (tokens : list string) : string := Qt.mid (tok tokens 1) 0 2.
Definition minute_group (tokens : list string) : string := Qt.mid (tok tokens 1) 2 2.
Definition second_group (tokens : list string) : string := Qt.mid (tok tokens 1) 4 2.

Definition utc_error : NMEAException :=
  InvalidDataError "Invalid UTC time in GGA frame".

(** The sections of parseGGA that follow the time. *)
Definition gga_after_utc (tokens : list string) : Parser unit :=
  gga_latitude tokens >> gga_longitude tokens >> gga_fix_type tokens >>
  gga_satellites tokens >> gga_hdop tokens >> gga_altitude tokens.


Definition out_of_range_time_tokens : list string :=
  ["$GPGGA"; "AB9900"; "4807.038"; "N"; "11131.000"; "E"; "1"; "08"; "0.9";
   "545.4"; "M"; ""; "*47"].

Definition gga_line (sats hdop' alt : string) : string :=
  "$GPGGA,123519,4807.038,N,11131.000,E,1," ++ sats ++ "," ++ hdop' ++ ","
  ++ alt ++ ",M,,*47".

Definition basic_GPS_fix : string :=
  "$GPGGA,123519,4807.038,N,11131.000,E,1,08,0.9,545.4,M,,*47".

(** The record parseLine leaves for [basic_GPS_fix]. *)
Definition basic_GPS_fix_record (cd : Qt.QDate) : GNSSData :=
  {| satellites := 8;
     latitude := S754_finite false 6771907948439824 (-47);
     longitude := S754_finite false 7847287788212497 (-46);
     altitude := S754_finite false 4797389134312243 (-43);
     snrAvg := Double.zero;
     hdop := S754_finite false 8106479329266893 (-53);
     vdop := Double.zero;
     satMap := ∅;
     fixType := "GPS Fix";
     timestamp := Some (Qt.mkQDateTime cd (Qt.mkQTime 12 35 19)) |}.

(** The entry the loop body builds from the tuple at index [i]. *)
Definition tuple_info (tokens : list string) (i : Z) : SATInfo :=
  {| elevation := if snd (Qt.toDouble (tok tokens (i + 1)))
                  then fst (Qt.toDouble (tok tokens (i + 1))) else neg_qInf;
     azimuth := if snd (Qt.toDouble (tok tokens (i + 2)))
                then fst (Qt.toDouble (tok tokens (i + 2))) else neg_qInf;
     snr := if snd (Qt.toDouble (tok tokens (i + 3)))
            then fst (Qt.toDouble (tok tokens (i + 3))) else neg_qInf |}.

(** [id] with [info] is what the tuple at some index of [tokens] stands
    for: a complete tuple at a stride index whose first field is a
    positive integer. *)
Definition from_tuple (tokens : list string) (id : Z) (info : SATInfo) : Prop :=
  exists i, 4 <= i /\ i + 3 < size tokens /\
            Qt.toInt (tok tokens i) = (id, true) /\ 0 < id /\
            info = tuple_info tokens i.

Definition gsv_failing_tokens : list string :=
  ["$GPGSV"; "1"; "1"; "1"; "02"; "65"; "290"; "42"].

Definition gsv_short_first : list string := ["$GPGSV"; "3"; "1"; "11"].
Definition gsv_short_second : list string := ["$GPGSV"; "3"; "2"; "11"].

Definition gsv_earlier_session : GSVSession :=
  {| gsvTempSatellites :=
       <[7 := {| elevation := Double.zero; azimuth := Double.zero;
                 snr := Double.zero |}]> ∅;
     expectedGSVParts := 2 |}.

(** The record after the UTC section of parseGGA: the timestamp is
    written when the time of day is valid, and only then. *)
Definition with_time (cd : Qt.QDate) (tokens : list string) (d : GNSSData)
  : GNSSData :=
  if Qt.isValid (gga_time tokens)
  then set_timestamp (Qt.mkQDateTime cd (gga_time tokens)) d else d.

(** The cases of the [switch] on the fix quality that do not throw. *)
Inductive fix_label : Z -> string -> Prop :=
| label_no_fix : fix_label 0 "No Fix"
| label_gps : fix_label 1 "GPS Fix"
| label_dgps : fix_label 2 "DGPS Fix"
| label_rtk : fix_label 4 "RTK Fix".

(** The values the last three sections of parseGGA store, and their
    range tests. *)
Definition sat_count (tokens : list string) : Z :=
  fst (Qt.toInt (tok tokens 7)) mod 256.

Definition hdop_value (tokens : list string) : double :=
  fst (Qt.toDouble (tok tokens 8)).

Definition altitude_value (tokens : list string) : double :=
  fst (Qt.toDouble (tok tokens 9)).

Definition hdop_rejected (tokens : list string) : bool :=
  Double.leb (hdop_value tokens) (Double.of_int 0)
  || Double.gtb (hdop_value tokens) (Double.of_int 50).

Definition altitude_rejected (tokens : list string) : bool :=
  Double.ltb (altitude_value tokens) (Double.of_int (-500))
  || Double.gtb (altitude_value tokens) (Double.of_int 10000).

(** The exits of parseGGA, in the order of the source: the record as the
    function leaves it and the outcome, one constructor for every [throw]
    and one for the end of the body. *)
Inductive GGAExit (cd : Qt.QDate) (tokens : list string) (d : GNSSData)
  : GNSSData -> result unit -> Prop :=
| exit_size :
    size tokens < 10 ->
    GGAExit cd tokens d d
      (Throw (ParsingError "GGA frame too short: expected >=10 fields"))
| exit_utc :
    10 <= size tokens -> Qt.size (tok tokens 1) < 6 ->
    GGAExit cd tokens d d (Throw utc_error)
| exit_latitude e :
    10 <= size tokens -> 6 <= Qt.size (tok tokens 1) ->
    convertToDecimalDegrees (tok tokens 2) (tok tokens 3) = Throw e ->
    GGAExit cd tokens d (with_time cd tokens d) (Throw e)
| exit_longitude lat e :
    10 <= size tokens -> 6 <= Qt.size (tok tokens 1) ->
    convertToDecimalDegrees (tok tokens 2) (tok tokens 3) = Ok lat ->
    convertToDecimalDegrees (tok tokens 4) (tok tokens 5) = Throw e ->
    GGAExit cd tokens d (set_latitude lat (with_time cd tokens d)) (Throw e)
| exit_longitude_inf lat lon :
    10 <= size tokens -> 6 <= Qt.size (tok tokens 1) ->
    convertToDecimalDegrees (tok tokens 2) (tok tokens 3) = Ok lat ->
    convertToDecimalDegrees (tok tokens 4) (tok tokens 5) = Ok lon ->
    Double.eqb lon neg_qInf = true ->
    GGAExit cd tokens d
      (set_longitude lon (set_latitude lat (with_time cd tokens d)))
      (Throw (InvalidDataError "Longitude conversion failed"))
| exit_fix_type lat lon :
    10 <= size tokens -> 6 <= Qt.size (tok tokens 1) ->
    convertToDecimalDegrees (tok tokens 2) (tok tokens 3) = Ok lat ->
    convertToDecimalDegrees (tok tokens 4) (tok tokens 5) = Ok lon ->
    Double.eqb lon neg_qInf = false ->
    (forall label, ~ fix_label (fst (Qt.toInt (tok tokens 6))) label) ->
    GGAExit cd tokens d
      (set_longitude lon (set_latitude lat (with_time cd tokens d)))
      (Throw (InvalidDataError
                ("Unknown fix quality code: "
                 ++ Qt.number (fst (Qt.toInt (tok tokens 6))))))
| exit_satellites lat lon label :
    10 <= size tokens -> 6 <= Qt.size (tok tokens 1) ->
    convertToDecimalDegrees (tok tokens 2) (tok tokens 3) = Ok lat ->
    convertToDecimalDegrees (tok tokens 4) (tok tokens 5) = Ok lon ->
    Double.eqb lon neg_qInf = false ->
    fix_label (fst (Qt.toInt (tok tokens 6))) label ->
    50 < sat_count tokens ->
    GGAExit cd tokens d
      (set_satellites (sat_count tokens)
         (set_fixType label
            (set_longitude lon (set_latitude lat (with_time cd tokens d)))))
      (Throw (InvalidDataError "Number of satellites out of range"))
| exit_hdop lat lon label :
    10 <= size tokens -> 6 <= Qt.size (tok tokens 1) ->
    convertToDecimalDegrees (tok tokens 2) (tok tokens 3) = Ok lat ->
    convertToDecimalDegrees (tok tokens 4) (tok tokens 5) = Ok lon ->
    Double.eqb lon neg_qInf = false ->
    fix_label (fst (Qt.toInt (tok tokens 6))) label ->
    sat_count tokens <= 50 ->
    hdop_rejected tokens = true ->
    GGAExit cd tokens d
      (set_hdop (hdop_value tokens)
         (set_satellites (sat_count tokens)
            (set_fixType label
               (set_longitude lon
                  (set_latitude lat (with_time cd tokens d))))))
      (Throw (InvalidDataError "HDOP value out of range"))
| exit_altitude lat lon label :
    10 <= size tokens -> 6 <= Qt.size (tok tokens 1) ->
    convertToDecimalDegrees (tok tokens 2) (tok tokens 3) = Ok lat ->
    convertToDecimalDegrees (tok tokens 4) (tok tokens 5) = Ok lon ->
    Double.eqb lon neg_qInf = false ->
    fix_label (fst (Qt.toInt (tok tokens 6))) label ->
    sat_count tokens <= 50 ->
    hdop_rejected tokens = false ->
    altitude_rejected tokens = true ->
    GGAExit cd tokens d
      (set_altitude (altitude_value tokens)
         (set_hdop (hdop_value tokens)
            (set_satellites (sat_count tokens)
               (set_fixType label
                  (set_longitude lon
                     (set_latitude lat (with_time cd tokens d)))))))
      (Throw (InvalidDataError "Altitude out of realistic bounds"))
| exit_return lat lon label :
    10 <= size tokens -> 6 <= Qt.size (tok tokens 1) ->
    convertToDecimalDegrees (tok tokens 2) (tok tokens 3) = Ok lat ->
    convertToDecimalDegrees (tok tokens 4) (tok tokens 5) = Ok lon ->
    Double.eqb lon neg_qInf = false ->
    fix_label (fst (Qt.toInt (tok tokens 6))) label ->
    sat_count tokens <= 50 ->
    hdop_rejected tokens = false ->
    altitude_rejected tokens = false ->
    GGAExit cd tokens d
      (set_altitude (altitude_value tokens)
         (set_hdop (hdop_value tokens)
            (set_satellites (sat_count tokens)
               (set_fixType label
                  (set_longitude lon
                     (set_latitude lat (with_time cd tokens d)))))))
      (Ok tt).

(** The number of commas of a line. *)
Fixpoint count_commas (s : string) : nat :=
  match s with
  | EmptyString => 0%nat
  | String c r =>
      if Ascii.eqb c ","%char then S (count_commas r) else count_commas r
  end.

(** The map after a turn of the parseGSV loop at index 4: the entry of the
    tuple at index 4 is upserted when its first field is a positive
    integer. *)
Definition first_tuple_upsert (tokens : list string) (sats : gmap Z SATInfo)
  : gmap Z SATInfo :=
  if snd (Qt.toInt (tok tokens 4)) && (0 <? fst (Qt.toInt (tok tokens 4)))
  then <[fst (Qt.toInt (tok tokens 4)) := tuple_info tokens 4]> sats
  else sats.

Definition longitude_inf_tokens : list string :=
  ["$GPGGA"; "123519"; "4807.038"; "N"; "111-inf"; "E"; "1"; "08"; "0.9";
   "545.4"; "M"; ""; "*47"].

Definition gsv_two_tuples : list string :=
  ["$GPGSV"; "1"; "1"; "2"; "02"; "65"; "290"; "42"; "04"; "40"; "150"; "38"].

(* ===================================================================== *)
(** ** Sample runs of the Qt functions *)
(* ===================================================================== *)

Example toInt_08 : Qt.toInt "08" = (8, true).
Proof. reflexivity. Qed.

Example toInt_empty : Qt.toInt "" = (0, false).
Proof. reflexivity. Qed.

Example toInt_big : Qt.toInt "2147483648" = (0, false).
Proof. reflexivity. Qed.

Example toInt_neg : Qt.toInt " -12 " = (-12, true).
Proof. reflexivity. Qed.

Example toDouble_0_9 :
  Qt.toDouble "0.9" = (S754_finite false 8106479329266893 (-53), true).
Proof. vm_compute. reflexivity. Qed.

Example toDouble_1e2 :
  Qt.toDouble "1E2" = (S754_finite false 7036874417766400 (-46), true).
Proof. vm_compute. reflexivity. Qed.

Example toDouble_junk : Qt.toDouble "1.2.3" = (Double.zero, false).
Proof. vm_compute. reflexivity. Qed.

Example split_example :
  Qt.split_comma "a,,b," = ["a"; ""; "b"; ""].
Proof. reflexivity. Qed.

(* ===================================================================== *)
(** ** Basic facts *)
(* ===================================================================== *)

Lemma isEmpty_true (s : string) : isEmpty s = true <-> s = "".
Proof.
  unfold isEmpty, Qt.size. destruct s; simpl; split; intros H;
    try reflexivity; discriminate.
Qed.

Lemma isEmpty_false (s : string) : isEmpty s = false <-> s <> "".
Proof.
  rewrite <- isEmpty_true. destruct (isEmpty s); split; congruence.
Qed.

Lemma degDigits_cases (direction : string) :
  ((direction = "N" \/ direction = "S") /\ degDigits direction = 2%nat) \/
  (direction <> "N" /\ direction <> "S" /\ degDigits direction = 3%nat).
Proof.
  unfold degDigits.
  destruct (String.eqb_spec direction "N") as [->|HN]; [left; auto|].
  destruct (String.eqb_spec direction "S") as [->|HS]; [left; auto|].
  right. auto.
Qed.

Lemma raises_Throw {A : Type} (e : NMEAException) (k : ErrorKind) :
  raises (@Throw A e) k <-> kind e = k.
Proof.
  unfold raises. split.
  - intros (e' & Heq & Hk). congruence.
  - intros Hk. exists e. auto.
Qed.

Lemma raises_Ok {A : Type} (a : A) (k : ErrorKind) : ~ raises (Ok a) k.
Proof. intros (e & Heq & _). discriminate. Qed.

Lemma returns_Ok {A : Type} (a : A) : returns (Ok a).
Proof. exists a. reflexivity. Qed.

Lemma returns_Throw {A : Type} (e : NMEAException) : ~ returns (@Throw A e).
Proof. intros (a & Heq). discriminate. Qed.

(** On failure [toInt] returns 0. *)
Lemma toInt_failed (s : string) : snd (Qt.toInt s) = false -> fst (Qt.toInt s) = 0.
Proof.
  unfold Qt.toInt.
  destruct (Qt.parse_sign (Qt.trimmed s)) as [neg l1].
  destruct (Qt.span_digits l1) as [ds rest].
  destruct ds as [|c ds]; [reflexivity|].
  destruct rest; [|reflexivity].
  match goal with |- context [if ?b then _ else _] => destruct b end;
    simpl; [discriminate | reflexivity].
Qed.

(** A value [toInt] returns is an [int]. *)
Lemma toInt_range (s : string) :
  Qt.INT_MIN <= fst (Qt.toInt s) <= Qt.INT_MAX.
Proof.
  unfold Qt.toInt.
  destruct (Qt.parse_sign (Qt.trimmed s)) as [neg l1].
  destruct (Qt.span_digits l1) as [ds rest].
  assert (H0 : Qt.INT_MIN <= 0 <= Qt.INT_MAX) by (unfold Qt.INT_MIN, Qt.INT_MAX; lia).
  destruct ds as [|c ds]; [exact H0|].
  destruct rest; [|exact H0].
  match goal with |- context [if ?b then _ else _] => destruct b eqn:Hb end;
    simpl; [|exact H0].
  apply andb_true_iff in Hb as [H1 H2].
  apply Z.leb_le in H1, H2. lia.
Qed.

(** The IEEE comparison [==] holds between a double and itself unless it
    is a NaN. *)
Lemma Double_eqb_refl (x : double) :
  Double.is_nan x = false -> Double.eqb x x = true.
Proof.
  unfold Double.eqb, SFeqb. destruct x as [s|s| |s m e]; simpl; try discriminate;
    intros _; try reflexivity.
  - destruct s; reflexivity.
  - rewrite Z.compare_refl, Pos.compare_cont_refl.
    destruct s; reflexivity.
Qed.

(* ===================================================================== *)
(** ** convertToDecimalDegrees *)
(* ===================================================================== *)

(** C6. [convertToDecimalDegrees] throws an [InvalidDataError] (a semantic
    error) exactly when the value is empty, or the hemisphere is empty, or
    the value is shorter than the degree width (2 for N and S, 3 for any
    other hemisphere), or the degree prefix is not an integer, or the
    minutes suffix is not a floating-point number; in every other case it
    returns a value. *)
Theorem convertToDecimalDegrees_raises_iff (value direction : string) :
  (((direction = "N" \/ direction = "S") /\ degDigits direction = 2%nat) \/
   (direction <> "N" /\ direction <> "S" /\ degDigits direction = 3%nat)) /\
  (raises (convertToDecimalDegrees value direction) Semantic <->
     (value = "" \/ direction = "" \/
      (String.length value < degDigits direction)%nat \/
      snd (Qt.toInt (Qt.left value (degDigits direction))) = false \/
      snd (Qt.toDouble (Qt.mid_from value (degDigits direction))) = false)) /\
  (returns (convertToDecimalDegrees value direction) <->
     ~ (value = "" \/ direction = "" \/
        (String.length value < degDigits direction)%nat \/
        snd (Qt.toInt (Qt.left value (degDigits direction))) = false \/
        snd (Qt.toDouble (Qt.mid_from value (degDigits direction))) = false)).
Proof.
  split; [apply degDigits_cases|].
  unfold convertToDecimalDegrees.
  destruct (isEmpty value || isEmpty direction) eqn:Hempty.
  { apply orb_true_iff in Hempty.
    assert (Hc : value = "" \/ direction = "")
      by (destruct Hempty as [H|H]; apply isEmpty_true in H; auto).
    split; split; intros H.
    - tauto.
    - apply raises_Throw. reflexivity.
    - exfalso. exact (returns_Throw _ H).
    - tauto. }
  apply orb_false_iff in Hempty as [Hv Hd].
  apply isEmpty_false in Hv, Hd.
  destruct (Qt.size value <? Z.of_nat (degDigits direction)) eqn:Hshort.
  { apply Z.ltb_lt in Hshort. unfold Qt.size in Hshort.
    assert (Hc : (String.length value < degDigits direction)%nat) by lia.
    split; split; intros H.
    - tauto.
    - apply raises_Throw. reflexivity.
    - exfalso. exact (returns_Throw _ H).
    - tauto. }
  apply Z.ltb_ge in Hshort. unfold Qt.size in Hshort.
  destruct (Qt.toInt (Qt.left value (degDigits direction))) as [degreePart okDeg].
  destruct (Qt.toDouble (Qt.mid_from value (degDigits direction)))
    as [minutePart okMin].
  simpl snd.
  destruct (negb okDeg || negb okMin) eqn:Hok.
  { assert (Hc : okDeg = false \/ okMin = false)
      by (destruct okDeg, okMin; simpl in Hok; auto; discriminate).
    split; split; intros H.
    - tauto.
    - apply raises_Throw. reflexivity.
    - exfalso. exact (returns_Throw _ H).
    - tauto. }
  assert (Hdeg : okDeg = true) by (destruct okDeg; [reflexivity | discriminate]).
  assert (Hmin : okMin = true)
    by (destruct okMin; [reflexivity | destruct okDeg; discriminate]).
  subst okDeg okMin.
  assert (Hno : ~ (value = "" \/ direction = "" \/
                   (String.length value < degDigits direction)%nat \/
                   true = false \/ true = false)).
  { intros [H|[H|[H|[H|H]]]]; try contradiction; try discriminate. lia. }
  destruct (String.eqb direction "S" || String.eqb direction "W");
    (split; split; intros H;
     [ exfalso; exact (raises_Ok _ _ H)
     | contradiction
     | exact Hno
     | apply returns_Ok ]).
Qed.

(** The IEEE comparison [==] between the negation of a double and itself
    holds exactly when the double is not a NaN. *)
Lemma Double_eqb_opp_self (x : double) :
  Double.eqb (Double.opp x) (Double.opp x) = negb (Double.is_nan x).
Proof.
  unfold Double.eqb, SFeqb. destruct x as [s|s| |s m e]; simpl;
    try reflexivity.
  - destruct s; reflexivity.
  - rewrite Z.compare_refl, Pos.compare_cont_refl.
    destruct s; reflexivity.
Qed.

(** C7, as the code has it. [convertToDecimalDegrees] is a function of
    its two arguments; where it succeeds for a value with hemisphere N
    (resp. E) it succeeds with hemisphere S (resp. W) and returns the
    negated double, the same binary64 value with the sign flipped; and the
    [==] of doubles holds between the result for S (resp. W) and the
    negated result for N (resp. E) exactly when the result is not a
    NaN. *)
Theorem convertToDecimalDegrees_opposite_hemisphere (value : string) (x : double) :
  (convertToDecimalDegrees value "N" = Ok x ->
     exists y, convertToDecimalDegrees value "S" = Ok y /\ y = Double.opp x /\
               Double.eqb y (Double.opp x) = negb (Double.is_nan x)) /\
  (convertToDecimalDegrees value "E" = Ok x ->
     exists y, convertToDecimalDegrees value "W" = Ok y /\ y = Double.opp x /\
               Double.eqb y (Double.opp x) = negb (Double.is_nan x)) /\
  (forall direction r1 r2,
     convertToDecimalDegrees value direction = r1 ->
     convertToDecimalDegrees value direction = r2 -> r1 = r2).
Proof.
  split; [|split].
  - unfold convertToDecimalDegrees.
    change (degDigits "S") with (degDigits "N").
    change (isEmpty "S") with (isEmpty "N").
    destruct (isEmpty value || isEmpty "N"); [intros [=]|].
    destruct (Qt.size value <? Z.of_nat (degDigits "N")); [intros [=]|].
    destruct (Qt.toInt (Qt.left value (degDigits "N"))) as [degreePart okDeg].
    destruct (Qt.toDouble (Qt.mid_from value (degDigits "N")))
      as [minutePart okMin].
    destruct (negb okDeg || negb okMin); [intros [=]|].
    simpl. intros [= <-]. eexists. split; [reflexivity|].
    split; [reflexivity | apply Double_eqb_opp_self].
  - unfold convertToDecimalDegrees.
    change (degDigits "W") with (degDigits "E").
    change (isEmpty "W") with (isEmpty "E").
    destruct (isEmpty value || isEmpty "E"); [intros [=]|].
    destruct (Qt.size value <? Z.of_nat (degDigits "E")); [intros [=]|].
    destruct (Qt.toInt (Qt.left value (degDigits "E"))) as [degreePart okDeg].
    destruct (Qt.toDouble (Qt.mid_from value (degDigits "E")))
      as [minutePart okMin].
    destruct (negb okDeg || negb okMin); [intros [=]|].
    simpl. intros [= <-]. eexists. split; [reflexivity|].
    split; [reflexivity | apply Double_eqb_opp_self].
  - intros direction r1 r2 <- <-. reflexivity.
Qed.

Lemma convertToDecimalDegrees_opposite_hemisphere_witness :
  exists y,
    convertToDecimalDegrees "4807.038" "S" = Ok y /\
    y = Double.opp (S754_finite false 6771907948439824 (-47)) /\
    Double.eqb y (Double.opp (S754_finite false 6771907948439824 (-47)))
      = negb (Double.is_nan (S754_finite false 6771907948439824 (-47))).
Proof.
  apply (proj1 (convertToDecimalDegrees_opposite_hemisphere
                  "4807.038" (S754_finite false 6771907948439824 (-47)))).
  vm_compute. reflexivity.
Defined.

(** C7, as it is stated, fails: a minutes suffix "nan" is read by
    [toDouble] as a NaN, the conversion succeeds with a NaN for both
    hemispheres, and [==] does not hold between a NaN and a NaN ("48nan"
    with N and S, "111nan" with E and W). *)
Lemma convertToDecimalDegrees_nan_not_equal :
  ~ (forall (value : string) (x y : double),
       convertToDecimalDegrees value "N" = Ok x ->
       convertToDecimalDegrees value "S" = Ok y ->
       Double.eqb y (Double.opp x) = true) /\
  ~ (forall (value : string) (x y : double),
       convertToDecimalDegrees value "E" = Ok x ->
       convertToDecimalDegrees value "W" = Ok y ->
       Double.eqb y (Double.opp x) = true).
Proof.
  split; intros H.
  - specialize (H "48nan" Double.nan Double.nan).
    assert (Hcmp : Double.eqb Double.nan (Double.opp Double.nan) = true)
      by (apply H; vm_compute; reflexivity).
    vm_compute in Hcmp. discriminate.
  - specialize (H "111nan" Double.nan Double.nan).
    assert (Hcmp : Double.eqb Double.nan (Double.opp Double.nan) = true)
      by (apply H; vm_compute; reflexivity).
    vm_compute in Hcmp. discriminate.
Qed.

(* ===================================================================== *)
(** ** The monad of parseGGA *)
(* ===================================================================== *)

Lemma bind_Ok {A B : Type} (c : Parser A) (k : A -> Parser B) d d' a :
  c d = (d', Ok a) -> bind c k d = k a d'.
Proof. intros H. unfold bind. rewrite H. reflexivity. Qed.

Lemma bind_Throw {A B : Type} (c : Parser A) (k : A -> Parser B) d d' e :
  c d = (d', Throw e) -> bind c k d = (d', Throw e).
Proof. intros H. unfold bind. rewrite H. reflexivity. Qed.

Section Frame.
Context {X : Type} (f : GNSSData -> X).

Lemma preserves_ret {A : Type} (a : A) : preserves f (ret a).
Proof. intros d. reflexivity. Qed.

Lemma preserves_throw {A : Type} (e : NMEAException) :
  preserves f (@throw A e).
Proof. intros d. reflexivity. Qed.

Lemma preserves_get : preserves f get.
Proof. intros d. reflexivity. Qed.

Lemma preserves_call {A : Type} (r : result A) : preserves f (call r).
Proof. intros d. reflexivity. Qed.

Lemma preserves_modify (g : GNSSData -> GNSSData) :
  (forall d, f (g d) = f d) -> preserves f (modify g).
Proof. intros H d. apply H. Qed.

Lemma preserves_when (b : bool) (c : Parser unit) :
  preserves f c -> preserves f (when b c).
Proof. intros H. destruct b; [exact H | apply preserves_ret]. Qed.

Lemma preserves_bind {A B : Type} (c : Parser A) (k : A -> Parser B) :
  preserves f c -> (forall a, preserves f (k a)) -> preserves f (bind c k).
Proof.
  intros Hc Hk d. unfold bind. specialize (Hc d).
  destruct (c d) as [d' [a|e]]; simpl in *.
  - rewrite Hk. exact Hc.
  - exact Hc.
Qed.
End Frame.

Section Throws.
Context (P : NMEAException -> Prop).

Lemma throws_only_ret {A : Type} (a : A) : throws_only P (ret a).
Proof. intros d e [=]. Qed.

Lemma throws_only_get : throws_only P get.
Proof. intros d e [=]. Qed.

Lemma throws_only_modify (g : GNSSData -> GNSSData) :
  throws_only P (modify g).
Proof. intros d e [=]. Qed.

Lemma throws_only_throw {A : Type} (e : NMEAException) :
  P e -> throws_only P (@throw A e).
Proof. intros H d e' [= <-]. exact H. Qed.


Lemma throws_only_when (b : bool) (c : Parser unit) :
  throws_only P c -> throws_only P (when b c).
Proof. intros H. destruct b; [exact H | apply throws_only_ret]. Qed.

Lemma throws_only_bind {A B : Type} (c : Parser A) (k : A -> Parser B) :
  throws_only P c -> (forall a, throws_only P (k a)) ->
  throws_only P (bind c k).
Proof.
  intros Hc Hk d e. unfold bind. specialize (Hc d).
  destruct (c d) as [d' [a|e']]; simpl in *.
  - apply Hk.
  - intros [= <-]. apply Hc. reflexivity.
Qed.
End Throws.

Ltac frame :=
  repeat first
    [ apply preserves_bind; [|intros ?]
    | apply preserves_when
    | apply preserves_modify; intros ?; reflexivity
    | apply preserves_ret | apply preserves_throw
    | apply preserves_get | apply preserves_call ].

(* ===================================================================== *)
(** ** parseGGA, section by section *)
(* ===================================================================== *)

Lemma gga_check_size_ok tokens d :
  10 <= size tokens -> gga_check_size tokens d = (d, Ok tt).
Proof.
  intros H. unfold gga_check_size.
  destruct (Z.ltb_spec (size tokens) 10); [lia | reflexivity].
Qed.

Lemma gga_check_size_short tokens d :
  size tokens < 10 ->
  gga_check_size tokens d =
  (d, Throw (ParsingError "GGA frame too short: expected >=10 fields")).
Proof.
  intros H. unfold gga_check_size.
  destruct (Z.ltb_spec (size tokens) 10); [reflexivity | lia].
Qed.

Lemma gga_utc_ok cd tokens d :
  6 <= Qt.size (tok tokens 1) ->
  gga_utc cd tokens d =
  (if Qt.isValid (gga_time tokens)
   then set_timestamp (Qt.mkQDateTime cd (gga_time tokens)) d else d,
   Ok tt).
Proof.
  intros H. unfold gga_utc, bind, when, gga_time.
  destruct (Z.ltb_spec (Qt.size (tok tokens 1)) 6); [lia|].
  simpl. destruct (Qt.isValid _); reflexivity.
Qed.

Lemma gga_latitude_ok tokens d lat :
  convertToDecimalDegrees (tok tokens 2) (tok tokens 3) = Ok lat ->
  gga_latitude tokens d = (set_latitude lat d, Ok tt).
Proof. intros H. unfold gga_latitude, bind, call. rewrite H. reflexivity. Qed.

Lemma gga_longitude_ok tokens d lon :
  convertToDecimalDegrees (tok tokens 4) (tok tokens 5) = Ok lon ->
  Double.eqb lon neg_qInf = false ->
  gga_longitude tokens d = (set_longitude lon d, Ok tt).
Proof.
  intros H Hinf. unfold gga_longitude, bind, call, modify, get, when.
  rewrite H. simpl. rewrite Hinf. reflexivity.
Qed.

Lemma gga_tail_fixType tokens : preserves fixType (gga_tail tokens).
Proof. unfold gga_tail, gga_satellites, gga_hdop, gga_altitude. frame. Qed.


Lemma gga_tail_throws tokens : throws_only tail_error (gga_tail tokens).
Proof.
  unfold gga_tail, gga_satellites, gga_hdop, gga_altitude, tail_error.
  repeat first
    [ apply throws_only_bind; [|intros ?]
    | apply throws_only_when
    | apply throws_only_throw; tauto
    | apply throws_only_modify | apply throws_only_get
    | apply throws_only_ret ].
Qed.


(** parseGGA once the size, the time and the two coordinates are
    accepted: what remains runs on the record with the timestamp (when the
    time is valid) and the position stored. *)
Lemma parseGGA_after_position cd tokens d lat lon :
  10 <= size tokens ->
  6 <= Qt.size (tok tokens 1) ->
  convertToDecimalDegrees (tok tokens 2) (tok tokens 3) = Ok lat ->
  convertToDecimalDegrees (tok tokens 4) (tok tokens 5) = Ok lon ->
  Double.eqb lon neg_qInf = false ->
  parseGGA cd tokens d =
  (gga_fix_type tokens >> gga_tail tokens)
    (set_longitude lon
       (set_latitude lat
          (if Qt.isValid (gga_time tokens)
           then set_timestamp (Qt.mkQDateTime cd (gga_time tokens)) d
           else d))).
Proof.
  intros Hsize Htime Hlat Hlon Hinf.
  unfold parseGGA, try_log_rethrow.
  rewrite (bind_Ok _ _ _ _ _ (gga_check_size_ok tokens d Hsize)).
  rewrite (bind_Ok _ _ _ _ _ (gga_utc_ok cd tokens d Htime)).
  rewrite (bind_Ok _ _ _ _ _ (gga_latitude_ok tokens _ lat Hlat)).
  rewrite (bind_Ok _ _ _ _ _ (gga_longitude_ok tokens _ lon Hlon Hinf)).
  reflexivity.
Qed.

(* ===================================================================== *)
(** ** Frames that are too short *)
(* ===================================================================== *)

(** C8. With fewer than 10 tokens parseGGA throws a [ParsingError] (a
    structural error), and with fewer than 4 tokens parseGSV does; the
    record and the statics are left as they were and the outcome does not
    depend on any token, the size test being the first statement of both
    functions. *)
Theorem short_frame_is_structural_error
  (cd : Qt.QDate) (fuel : nat) (tokens : list string) (g : GSVSession)
  (d : GNSSData) :
  (size tokens < 10 ->
     parseGGA cd tokens d =
       (d, Throw (ParsingError "GGA frame too short: expected >=10 fields")) /\
     raises (snd (parseGGA cd tokens d)) Structural) /\
  (size tokens < 4 ->
     parseGSV fuel tokens g d =
       Some (g, d,
             Throw (ParsingError "GSV frame too short: expected >=4 fields"))).
Proof.
  split.
  - intros H. unfold parseGGA, try_log_rethrow.
    rewrite (bind_Throw _ _ _ _ _ (gga_check_size_short tokens d H)).
    split; [reflexivity|]. apply raises_Throw. reflexivity.
  - intros H. unfold parseGSV, try_log_rethrow.
    destruct (Z.ltb_spec (size tokens) 4); [reflexivity | lia].
Qed.

Lemma short_frame_is_structural_error_witness :
  parseGGA 0 ["$GPGGA"; "123519"; "4807.038"] GNSSData_default =
    (GNSSData_default,
     Throw (ParsingError "GGA frame too short: expected >=10 fields")) /\
  parseGSV 0 ["$GPGSV"; "3"; "1"] GSVSession_initial GNSSData_default =
    Some (GSVSession_initial, GNSSData_default,
          Throw (ParsingError "GSV frame too short: expected >=4 fields")).
Proof.
  pose proof (short_frame_is_structural_error 0 0%nat
                ["$GPGGA"; "123519"; "4807.038"] GSVSession_initial
                GNSSData_default) as [Hgga _].
  pose proof (short_frame_is_structural_error 0 0%nat
                ["$GPGSV"; "3"; "1"] GSVSession_initial
                GNSSData_default) as [_ Hgsv].
  split.
  - apply Hgga. vm_compute. reflexivity.
  - apply Hgsv. vm_compute. reflexivity.
Defined.

(* ===================================================================== *)
(** ** The fix type *)
(* ===================================================================== *)

Lemma gga_fix_type_known tokens d label :
  (fst (Qt.toInt (tok tokens 6)) = 0 /\ label = "No Fix") \/
  (fst (Qt.toInt (tok tokens 6)) = 1 /\ label = "GPS Fix") \/
  (fst (Qt.toInt (tok tokens 6)) = 2 /\ label = "DGPS Fix") \/
  (fst (Qt.toInt (tok tokens 6)) = 4 /\ label = "RTK Fix") ->
  gga_fix_type tokens d = (set_fixType label d, Ok tt).
Proof.
  unfold gga_fix_type.
  intros [[H E]|[[H E]|[[H E]|[H E]]]]; rewrite H, E; reflexivity.
Qed.

Lemma gga_fix_type_unknown tokens d :
  fst (Qt.toInt (tok tokens 6)) <> 0 ->
  fst (Qt.toInt (tok tokens 6)) <> 1 ->
  fst (Qt.toInt (tok tokens 6)) <> 2 ->
  fst (Qt.toInt (tok tokens 6)) <> 4 ->
  gga_fix_type tokens d =
  (d, Throw (InvalidDataError
               ("Unknown fix quality code: "
                ++ Qt.number (fst (Qt.toInt (tok tokens 6)))))).
Proof.
  unfold gga_fix_type.
  destruct (fst (Qt.toInt (tok tokens 6))) as [|[[]|[[]|[]|]|]|];
    intros H0 H1 H2 H4; try reflexivity; congruence.
Qed.

Lemma parseGGA_known_fix cd tokens d lat lon label :
  10 <= size tokens ->
  6 <= Qt.size (tok tokens 1) ->
  convertToDecimalDegrees (tok tokens 2) (tok tokens 3) = Ok lat ->
  convertToDecimalDegrees (tok tokens 4) (tok tokens 5) = Ok lon ->
  Double.eqb lon neg_qInf = false ->
  (fst (Qt.toInt (tok tokens 6)) = 0 /\ label = "No Fix") \/
  (fst (Qt.toInt (tok tokens 6)) = 1 /\ label = "GPS Fix") \/
  (fst (Qt.toInt (tok tokens 6)) = 2 /\ label = "DGPS Fix") \/
  (fst (Qt.toInt (tok tokens 6)) = 4 /\ label = "RTK Fix") ->
  fixType (fst (parseGGA cd tokens d)) = label /\
  forall e, snd (parseGGA cd tokens d) = Throw e -> tail_error e.
Proof.
  intros Hsize Htime Hlat Hlon Hinf Hcode.
  rewrite (parseGGA_after_position cd tokens d lat lon) by assumption.
  rewrite (bind_Ok _ _ _ _ _ (gga_fix_type_known tokens _ label Hcode)).
  split.
  - rewrite gga_tail_fixType. reflexivity.
  - intros e. apply gga_tail_throws.
Qed.

(** C3. Once the size, the time and the two coordinates are accepted,
    the fix-quality code 0, 1, 2 or 4 sets the fix type of the record to
    "No Fix", "GPS Fix", "DGPS Fix" or "RTK Fix", and any other code makes
    parseGGA throw an [InvalidDataError] (a semantic error) that names the
    code. *)
Theorem parseGGA_fix_type_table
  (cd : Qt.QDate) (tokens : list string) (d : GNSSData) (lat lon : double) :
  10 <= size tokens ->
  6 <= Qt.size (tok tokens 1) ->
  convertToDecimalDegrees (tok tokens 2) (tok tokens 3) = Ok lat ->
  convertToDecimalDegrees (tok tokens 4) (tok tokens 5) = Ok lon ->
  Double.eqb lon neg_qInf = false ->
  (fst (Qt.toInt (tok tokens 6)) = 0 ->
     fixType (fst (parseGGA cd tokens d)) = "No Fix") /\
  (fst (Qt.toInt (tok tokens 6)) = 1 ->
     fixType (fst (parseGGA cd tokens d)) = "GPS Fix") /\
  (fst (Qt.toInt (tok tokens 6)) = 2 ->
     fixType (fst (parseGGA cd tokens d)) = "DGPS Fix") /\
  (fst (Qt.toInt (tok tokens 6)) = 4 ->
     fixType (fst (parseGGA cd tokens d)) = "RTK Fix") /\
  (fst (Qt.toInt (tok tokens 6)) <> 0 ->
   fst (Qt.toInt (tok tokens 6)) <> 1 ->
   fst (Qt.toInt (tok tokens 6)) <> 2 ->
   fst (Qt.toInt (tok tokens 6)) <> 4 ->
     snd (parseGGA cd tokens d) =
       Throw (InvalidDataError
                ("Unknown fix quality code: "
                 ++ Qt.number (fst (Qt.toInt (tok tokens 6))))) /\
     raises (snd (parseGGA cd tokens d)) Semantic).
Proof.
  intros Hsize Htime Hlat Hlon Hinf.
  repeat split.
  - intros H. eapply parseGGA_known_fix; eauto.
  - intros H. eapply parseGGA_known_fix; eauto 6.
  - intros H. eapply parseGGA_known_fix; eauto 6.
  - intros H. eapply parseGGA_known_fix; eauto 7.
  - rewrite (parseGGA_after_position cd tokens d lat lon) by assumption.
    rewrite (bind_Throw _ _ _ _ _ (gga_fix_type_unknown tokens _ H H0 H1 H2)).
    reflexivity.
  - rewrite (parseGGA_after_position cd tokens d lat lon) by assumption.
    rewrite (bind_Throw _ _ _ _ _ (gga_fix_type_unknown tokens _ H H0 H1 H2)).
    apply raises_Throw. reflexivity.
Qed.

Lemma parseGGA_fix_type_table_witness :
  fixType (fst (parseGGA 0 sample_tokens GNSSData_default)) = "GPS Fix".
Proof.
  eapply (parseGGA_fix_type_table 0 sample_tokens GNSSData_default).
  - vm_compute. discriminate.
  - vm_compute. discriminate.
  - vm_compute. reflexivity.
  - vm_compute. reflexivity.
  - vm_compute. reflexivity.
  - vm_compute. reflexivity.
Defined.

(** C9. Once the size, the time and the two coordinates are accepted, a
    fix-quality token that [toInt] cannot read counts as the code 0: the
    fix type of the record is set to "No Fix", and an exception, if
    parseGGA throws one, comes from the satellite count, the HDOP or the
    altitude, never from the fix type. *)
Theorem parseGGA_unreadable_fix_quality
  (cd : Qt.QDate) (tokens : list string) (d : GNSSData) (lat lon : double) :
  10 <= size tokens ->
  6 <= Qt.size (tok tokens 1) ->
  convertToDecimalDegrees (tok tokens 2) (tok tokens 3) = Ok lat ->
  convertToDecimalDegrees (tok tokens 4) (tok tokens 5) = Ok lon ->
  Double.eqb lon neg_qInf = false ->
  snd (Qt.toInt (tok tokens 6)) = false ->
  fst (Qt.toInt (tok tokens 6)) = 0 /\
  fixType (fst (parseGGA cd tokens d)) = "No Fix" /\
  (forall e, snd (parseGGA cd tokens d) = Throw e ->
             tail_error e /\
             e <> InvalidDataError
                    ("Unknown fix quality code: "
                     ++ Qt.number (fst (Qt.toInt (tok tokens 6))))).
Proof.
  intros Hsize Htime Hlat Hlon Hinf Hfail.
  pose proof (toInt_failed _ Hfail) as Hzero.
  destruct (parseGGA_known_fix cd tokens d lat lon "No Fix")
    as [Hfix Herr]; auto.
  split; [exact Hzero|]. split; [exact Hfix|].
  intros e He. specialize (Herr e He). split; [exact Herr|].
  rewrite Hzero. destruct Herr as [ -> | [ -> | -> ] ]; discriminate.
Qed.

Lemma parseGGA_unreadable_fix_quality_witness :
  fixType
    (fst (parseGGA 0
            ["$GPGGA"; "123519"; "4807.038"; "N"; "11131.000"; "E"; "";
             "08"; "0.9"; "545.4"; "M"; ""; "*47"] GNSSData_default))
  = "No Fix".
Proof.
  eapply (parseGGA_unreadable_fix_quality 0
            ["$GPGGA"; "123519"; "4807.038"; "N"; "11131.000"; "E"; "";
             "08"; "0.9"; "545.4"; "M"; ""; "*47"] GNSSData_default).
  - vm_compute. discriminate.
  - vm_compute. discriminate.
  - vm_compute. reflexivity.
  - vm_compute. reflexivity.
  - vm_compute. reflexivity.
  - vm_compute. reflexivity.
Defined.

(* ===================================================================== *)
(** ** The time of day *)
(* ===================================================================== *)




Lemma parseGGA_after_utc cd tokens d :
  10 <= size tokens ->
  6 <= Qt.size (tok tokens 1) ->
  parseGGA cd tokens d =
  gga_after_utc tokens
    (if Qt.isValid (gga_time tokens)
     then set_timestamp (Qt.mkQDateTime cd (gga_time tokens)) d else d).
Proof.
  intros Hsize Htime. unfold parseGGA, try_log_rethrow.
  rewrite (bind_Ok _ _ _ _ _ (gga_check_size_ok tokens d Hsize)).
  rewrite (bind_Ok _ _ _ _ _ (gga_utc_ok cd tokens d Htime)).
  reflexivity.
Qed.






Example out_of_range_time_run :
  parseGGA 0 out_of_range_time_tokens GNSSData_default
  = (fst (parseGGA 0 out_of_range_time_tokens GNSSData_default), Ok tt) /\
  timestamp (fst (parseGGA 0 out_of_range_time_tokens GNSSData_default)) = None.
Proof. vm_compute. split; reflexivity. Qed.

(* ===================================================================== *)
(** ** Satellite count, HDOP and altitude *)
(* ===================================================================== *)

(** What the satellite section does: the count [toInt] read is reduced
    modulo 256 by the store into the [u_int8_t] field, and the range test
    reads the field. *)
Lemma gga_satellites_spec tokens d :
  gga_satellites tokens d =
  (set_satellites (fst (Qt.toInt (tok tokens 7)) mod 256) d,
   if 50 <? fst (Qt.toInt (tok tokens 7)) mod 256
   then Throw (InvalidDataError "Number of satellites out of range")
   else Ok tt).
Proof.
  unfold gga_satellites, bind, modify, get, when, to_u8. simpl.
  destruct (Z.ltb_spec (fst (Qt.toInt (tok tokens 7)) mod 256) 0) as [Hneg|_].
  - pose proof (Z.mod_pos_bound (fst (Qt.toInt (tok tokens 7))) 256). lia.
  - simpl. destruct (50 <? _); reflexivity.
Qed.

(** A count that is in range is stored as it is and accepted. *)
Lemma gga_satellites_in_range tokens d :
  0 <= fst (Qt.toInt (tok tokens 7)) <= 50 ->
  gga_satellites tokens d =
  (set_satellites (fst (Qt.toInt (tok tokens 7))) d, Ok tt).
Proof.
  intros H. rewrite gga_satellites_spec, Z.mod_small by lia.
  destruct (Z.ltb_spec 50 (fst (Qt.toInt (tok tokens 7)))); [lia | reflexivity].
Qed.

(** A count from 51 to 255 is rejected. *)
Lemma gga_satellites_above tokens d :
  50 < fst (Qt.toInt (tok tokens 7)) < 256 ->
  snd (gga_satellites tokens d) =
  Throw (InvalidDataError "Number of satellites out of range").
Proof.
  intros H. rewrite gga_satellites_spec, Z.mod_small by lia. simpl.
  destruct (Z.ltb_spec 50 (fst (Qt.toInt (tok tokens 7)))); [reflexivity | lia].
Qed.

(** The HDOP and the altitude are stored as [toDouble] read them, and
    tested with the comparisons of doubles. *)
Lemma gga_hdop_spec tokens d :
  gga_hdop tokens d =
  (set_hdop (fst (Qt.toDouble (tok tokens 8))) d,
   if Double.leb (fst (Qt.toDouble (tok tokens 8))) (Double.of_int 0)
      || Double.gtb (fst (Qt.toDouble (tok tokens 8))) (Double.of_int 50)
   then Throw (InvalidDataError "HDOP value out of range")
   else Ok tt).
Proof.
  unfold gga_hdop, bind, modify, get, when. simpl.
  destruct (_ || _); reflexivity.
Qed.

Lemma gga_altitude_spec tokens d :
  gga_altitude tokens d =
  (set_altitude (fst (Qt.toDouble (tok tokens 9))) d,
   if Double.ltb (fst (Qt.toDouble (tok tokens 9))) (Double.of_int (-500))
      || Double.gtb (fst (Qt.toDouble (tok tokens 9))) (Double.of_int 10000)
   then Throw (InvalidDataError "Altitude out of realistic bounds")
   else Ok tt).
Proof.
  unfold gga_altitude, bind, modify, get, when. simpl.
  destruct (_ || _); reflexivity.
Qed.

(** The boundaries of the three ranges, on whole sentences. *)
Example satellites_51_rejected :
  snd (parseGGA 0 (Qt.split_comma (gga_line "51" "0.9" "545.4")) GNSSData_default)
  = Throw (InvalidDataError "Number of satellites out of range").
Proof. vm_compute. reflexivity. Qed.

Example satellites_50_accepted :
  snd (parseGGA 0 (Qt.split_comma (gga_line "50" "0.9" "545.4")) GNSSData_default)
  = Ok tt.
Proof. vm_compute. reflexivity. Qed.

Example hdop_0_rejected :
  snd (parseGGA 0 (Qt.split_comma (gga_line "08" "0" "545.4")) GNSSData_default)
  = Throw (InvalidDataError "HDOP value out of range").
Proof. vm_compute. reflexivity. Qed.

Example hdop_50_accepted :
  snd (parseGGA 0 (Qt.split_comma (gga_line "08" "50.0" "545.4")) GNSSData_default)
  = Ok tt.
Proof. vm_compute. reflexivity. Qed.

Example hdop_50_0001_rejected :
  snd (parseGGA 0 (Qt.split_comma (gga_line "08" "50.0001" "545.4")) GNSSData_default)
  = Throw (InvalidDataError "HDOP value out of range").
Proof. vm_compute. reflexivity. Qed.

Example altitude_minus_500_accepted :
  snd (parseGGA 0 (Qt.split_comma (gga_line "08" "0.9" "-500")) GNSSData_default)
  = Ok tt.
Proof. vm_compute. reflexivity. Qed.

Example altitude_10000_accepted :
  snd (parseGGA 0 (Qt.split_comma (gga_line "08" "0.9" "10000")) GNSSData_default)
  = Ok tt.
Proof. vm_compute. reflexivity. Qed.

Example altitude_10000_5_rejected :
  snd (parseGGA 0 (Qt.split_comma (gga_line "08" "0.9" "10000.5")) GNSSData_default)
  = Throw (InvalidDataError "Altitude out of realistic bounds").
Proof. vm_compute. reflexivity. Qed.

(** A NaN is in no range, and no comparison holds of it: it passes the
    tests of the HDOP and of the altitude. *)
Example hdop_nan_accepted :
  snd (parseGGA 0 (Qt.split_comma (gga_line "08" "nan" "545.4")) GNSSData_default)
  = Ok tt.
Proof. vm_compute. reflexivity. Qed.

(** C2, where the code departs from it. The satellite count 256 is
    outside [0,50], yet parseGGA accepts the sentence: the count is stored
    in the [u_int8_t] field as 0 and the range test reads the field. *)
Theorem parseGGA_satellite_count_256_accepted (cd : Qt.QDate) :
  fst (Qt.toInt (tok (Qt.split_comma (gga_line "256" "0.9" "545.4")) 7)) = 256 /\
  snd (parseGGA cd (Qt.split_comma (gga_line "256" "0.9" "545.4"))
         GNSSData_default) = Ok tt /\
  satellites (fst (parseGGA cd (Qt.split_comma (gga_line "256" "0.9" "545.4"))
                     GNSSData_default)) = 0.
Proof. vm_compute. repeat split; reflexivity. Qed.

(* ===================================================================== *)
(** ** An end-to-end sentence *)
(* ===================================================================== *)

(** C4. The dispatcher, given the literal sentence and a fresh record,
    returns without an exception; the latitude is within 0.002 of 48.1173
    and the longitude within 0.002 of 111.517, the satellite count is 8,
    the fix type "GPS Fix", and the altitude and the HDOP are the doubles
    nearest to 545.4 and 0.9. *)
Theorem parseLine_basic_GPS_fix (fuel : nat) (cd : Qt.QDate) (g : GSVSession) :
  parseLine fuel cd basic_GPS_fix g GNSSData_default =
    Some (g, basic_GPS_fix_record cd, Ok tt) /\
  (Qabs (Double.to_Q (latitude (basic_GPS_fix_record cd)) - (481173 # 10000))
     < (2 # 1000))%Q /\
  (Qabs (Double.to_Q (longitude (basic_GPS_fix_record cd)) - (111517 # 1000))
     < (2 # 1000))%Q /\
  satellites (basic_GPS_fix_record cd) = 8 /\
  fixType (basic_GPS_fix_record cd) = "GPS Fix" /\
  altitude (basic_GPS_fix_record cd) = Double.of_decimal false 5454 (-1) /\
  (Qabs (Double.to_Q (altitude (basic_GPS_fix_record cd)) - (5454 # 10))
     < (1 # 1000000000000))%Q /\
  hdop (basic_GPS_fix_record cd) = Double.of_decimal false 9 (-1) /\
  (Qabs (Double.to_Q (hdop (basic_GPS_fix_record cd)) - (9 # 10))
     < (1 # 1000000000000))%Q.
Proof.
  split; [vm_compute; reflexivity|].
  repeat split; vm_compute; reflexivity.
Qed.

(* ===================================================================== *)
(** ** parseGSV: the loop over the satellite tuples *)
(* ===================================================================== *)

Lemma gsv_increment_same (i : Z) : gsv_increment i = i.
Proof. reflexivity. Qed.

(** A turn of the loop entered with a complete tuple at [i]: the index is
    the same after it, and the map is the same or has the entry of that
    tuple upserted. *)
Lemma gsv_step_running tokens i sats :
  i + 3 < size tokens ->
  exists sats',
    gsv_step tokens (Running i sats) = Running i sats' /\
    (sats' = sats \/
     exists id, Qt.toInt (tok tokens i) = (id, true) /\ 0 < id /\
                sats' = <[id := tuple_info tokens i]> sats).
Proof.
  intros Hlt. unfold gsv_step, gsv_body, tuple_info.
  destruct (Z.ltb_spec (i + 3) (size tokens)) as [_|]; [|lia].
  destruct (Z.leb_spec (size tokens) (i + 3)) as [|_]; [lia|]. simpl.
  destruct (Qt.toInt (tok tokens i)) as [id okId].
  destruct (Qt.toDouble (tok tokens (i + 1))) as [elev okElev].
  destruct (Qt.toDouble (tok tokens (i + 2))) as [azim okAzim].
  destruct (Qt.toDouble (tok tokens (i + 3))) as [snr' okSnr].
  simpl. destruct okId; simpl.
  - destruct (Z.leb_spec id 0).
    + eexists. split; [reflexivity|]. left. reflexivity.
    + eexists. split; [reflexivity|]. right. exists id. auto.
  - eexists. split; [reflexivity|]. left. reflexivity.
Qed.

Lemma gsv_step_exit tokens i sats :
  size tokens <= i + 3 -> gsv_step tokens (Running i sats) = Exited sats.
Proof.
  intros H. unfold gsv_step.
  destruct (Z.ltb_spec (i + 3) (size tokens)); [lia | reflexivity].
Qed.

Lemma gsv_loop_S n tokens g :
  gsv_loop (S n) tokens g = gsv_step tokens (gsv_loop n tokens g).
Proof. reflexivity. Qed.

(** The loop is at index 4 for as long as it runs. *)
Lemma gsv_loop_index n tokens g i sats :
  gsv_loop n tokens g = Running i sats -> i = 4.
Proof.
  revert i sats. induction n as [|n IH]; intros i sats.
  - unfold gsv_loop. simpl. intros [= <- _]. reflexivity.
  - rewrite gsv_loop_S.
    destruct (gsv_loop n tokens g) as [j sats0|sats0] eqn:Hn; [|discriminate].
    pose proof (IH j sats0 eq_refl) as ->.
    destruct (Z.lt_ge_cases (4 + 3) (size tokens)) as [Hlt|Hge].
    + destruct (gsv_step_running tokens 4 sats0 Hlt) as (sats' & -> & _).
      intros [= <- _]. reflexivity.
    + rewrite gsv_step_exit by lia. discriminate.
Qed.

(** With a complete tuple at index 4 the loop is never left. *)
Lemma gsv_loop_stuck n tokens g :
  8 <= size tokens -> exists sats, gsv_loop n tokens g = Running 4 sats.
Proof.
  intros Hsize. induction n as [|n [sats IH]].
  - eexists. reflexivity.
  - rewrite gsv_loop_S, IH.
    destruct (gsv_step_running tokens 4 sats) as (sats' & Hstep & _); [lia|].
    exists sats'. exact Hstep.
Qed.

(** With fewer than 8 tokens the loop is left at its first test. *)
Lemma gsv_loop_exits n tokens g :
  size tokens < 8 ->
  gsv_loop (S n) tokens g = Exited (gsvTempSatellites (gsv_header tokens g)).
Proof.
  intros Hsize. induction n as [|n IH].
  - unfold gsv_loop. simpl. apply gsv_step_exit. lia.
  - rewrite gsv_loop_S, IH. reflexivity.
Qed.

(** With 4 to 7 tokens there is no complete tuple: parseGSV returns after
    the first test of the loop, with the statics as the part before the
    loop left them. *)
Lemma parseGSV_returns_without_tuple n tokens g d :
  4 <= size tokens < 8 ->
  parseGSV (S n) tokens g d = Some (gsv_header tokens g, d, Ok tt).
Proof.
  intros Hsize. unfold parseGSV, try_log_rethrow, gsv_session.
  destruct (Z.ltb_spec (size tokens) 4); [lia|].
  rewrite gsv_loop_exits by lia. simpl.
  destruct (gsv_header tokens g). reflexivity.
Qed.

(** C1, where the code departs from it. When the token list holds a
    complete tuple at index 4 (8 tokens or more), the third expression of
    the [for] statement leaves the index at 4: after any number of turns
    the loop is still running at index 4, and parseGSV has not returned,
    whatever the number of turns it is given. *)
Theorem parseGSV_stride_never_advances
  (tokens : list string) (g : GSVSession) (d : GNSSData) :
  8 <= size tokens ->
  forall fuel : nat,
    (exists sats, gsv_loop fuel tokens g = Running 4 sats) /\
    parseGSV fuel tokens g d = None.
Proof.
  intros Hsize fuel.
  destruct (gsv_loop_stuck fuel tokens g Hsize) as [sats Hloop].
  split; [exists sats; exact Hloop|].
  unfold parseGSV, try_log_rethrow.
  destruct (Z.ltb_spec (size tokens) 4); [lia|].
  rewrite Hloop. reflexivity.
Qed.

Lemma parseGSV_stride_never_advances_witness :
  (exists sats,
     gsv_loop 1000 gsv_failing_tokens GSVSession_initial = Running 4 sats) /\
  parseGSV 1000 gsv_failing_tokens GSVSession_initial GNSSData_default = None.
Proof.
  apply (parseGSV_stride_never_advances gsv_failing_tokens GSVSession_initial
           GNSSData_default).
  vm_compute. discriminate.
Defined.

(* ===================================================================== *)
(** ** parseGSV: the accumulation map *)
(* ===================================================================== *)

(** The loop only upserts: an entry of the map is one the map had when
    the loop was entered, or the entry of a tuple of this sentence. *)
Lemma gsv_loop_entries n tokens g id info :
  loop_sats (gsv_loop n tokens g) !! id = Some info ->
  gsvTempSatellites (gsv_header tokens g) !! id = Some info \/
  from_tuple tokens id info.
Proof.
  revert id info. induction n as [|n IH]; intros id info.
  - unfold gsv_loop. simpl. auto.
  - rewrite gsv_loop_S.
    destruct (gsv_loop n tokens g) as [i sats|sats] eqn:Hn; [|apply IH].
    pose proof (gsv_loop_index n tokens g i sats Hn) as ->.
    simpl in IH.
    destruct (Z.lt_ge_cases (4 + 3) (size tokens)) as [Hlt|Hge].
    + destruct (gsv_step_running tokens 4 sats Hlt)
        as (sats' & -> & [ -> | (id' & Hid & Hpos & ->)]); simpl.
      * apply IH.
      * destruct (decide (id' = id)) as [->|Hne].
        -- rewrite lookup_insert_eq. intros [= <-]. right.
           exists 4. repeat split; auto; lia.
        -- rewrite lookup_insert_ne by exact Hne. apply IH.
    + rewrite gsv_step_exit by lia. simpl. apply IH.
Qed.

(** The loop never removes a key. *)
Lemma gsv_loop_keeps n tokens g id :
  is_Some (gsvTempSatellites (gsv_header tokens g) !! id) ->
  is_Some (loop_sats (gsv_loop n tokens g) !! id).
Proof.
  intros H. induction n as [|n IH].
  - exact H.
  - rewrite gsv_loop_S.
    destruct (gsv_loop n tokens g) as [i sats|sats] eqn:Hn; [|exact IH].
    pose proof (gsv_loop_index n tokens g i sats Hn) as ->.
    simpl in IH.
    destruct (Z.lt_ge_cases (4 + 3) (size tokens)) as [Hlt|Hge].
    + destruct (gsv_step_running tokens 4 sats Hlt)
        as (sats' & -> & [ -> | (id' & Hid & Hpos & ->)]); simpl.
      * exact IH.
      * rewrite lookup_insert. destruct (decide (id' = id)); [eauto | exact IH].
    + rewrite gsv_step_exit by lia. exact IH.
Qed.

(** C5. For a token list of at least 4 tokens:
    - when the message index (token 2) is 1, the part of parseGSV before
      the loop empties the map and records the total count (token 1); from
      then on, after any number of turns of the loop and so when parseGSV
      returns, every entry of the map is the entry of a tuple of this
      sentence, none is left from an earlier sequence;
    - when the message index is not 1, that part leaves both statics as
      they were, and no key the map had is ever removed by the loop;
    - what parseGSV returns are the statics in that state. *)
Theorem parseGSV_clears_on_first_message_only
  (tokens : list string) (g : GSVSession) :
  4 <= size tokens ->
  (fst (Qt.toInt (tok tokens 2)) = 1 ->
     gsv_header tokens g =
       {| gsvTempSatellites := ∅;
          expectedGSVParts := fst (Qt.toInt (tok tokens 1)) |} /\
     forall n : nat,
       expectedGSVParts (gsv_session n tokens g) = fst (Qt.toInt (tok tokens 1)) /\
       forall id info,
         gsvTempSatellites (gsv_session n tokens g) !! id = Some info ->
         from_tuple tokens id info) /\
  (fst (Qt.toInt (tok tokens 2)) <> 1 ->
     gsv_header tokens g = g /\
     forall n : nat,
       expectedGSVParts (gsv_session n tokens g) = expectedGSVParts g /\
       forall id,
         is_Some (gsvTempSatellites g !! id) ->
         is_Some (gsvTempSatellites (gsv_session n tokens g) !! id)) /\
  (forall fuel d g' d' r,
     parseGSV fuel tokens g d = Some (g', d', r) ->
     g' = gsv_session fuel tokens g /\ d' = d /\ r = Ok tt).
Proof.
  intros Hsize. split; [|split].
  - intros Hfirst.
    assert (Hheader : gsv_header tokens g =
              {| gsvTempSatellites := ∅;
                 expectedGSVParts := fst (Qt.toInt (tok tokens 1)) |}).
    { unfold gsv_header. rewrite Hfirst. reflexivity. }
    split; [exact Hheader|]. intros n. unfold gsv_session. simpl. split.
    + rewrite Hheader. reflexivity.
    + intros id info Hin.
      destruct (gsv_loop_entries n tokens g id info Hin) as [Hold|Hnew];
        [|exact Hnew].
      rewrite Hheader in Hold. simpl in Hold.
      rewrite lookup_empty in Hold. discriminate.
  - intros Hother.
    assert (Hheader : gsv_header tokens g = g).
    { unfold gsv_header.
      destruct (Z.eqb_spec (fst (Qt.toInt (tok tokens 2))) 1);
        [contradiction | reflexivity]. }
    split; [exact Hheader|]. intros n. unfold gsv_session. simpl. split.
    + rewrite Hheader. reflexivity.
    + intros id Hin. apply gsv_loop_keeps. rewrite Hheader. exact Hin.
  - intros fuel d g' d' r. unfold parseGSV, try_log_rethrow.
    destruct (Z.ltb_spec (size tokens) 4); [lia|].
    destruct (gsv_loop fuel tokens g); [discriminate|].
    intros [= <- <- <-]. auto.
Qed.

Lemma parseGSV_clears_on_first_message_only_witness :
  (gsv_header gsv_short_first gsv_earlier_session =
     {| gsvTempSatellites := ∅; expectedGSVParts := 3 |}) /\
  (gsv_header gsv_short_second gsv_earlier_session = gsv_earlier_session).
Proof.
  split.
  - apply (parseGSV_clears_on_first_message_only gsv_short_first
             gsv_earlier_session).
    + vm_compute. discriminate.
    + vm_compute. reflexivity.
  - apply (parseGSV_clears_on_first_message_only gsv_short_second
             gsv_earlier_session).
    + vm_compute. discriminate.
    + vm_compute. discriminate.
Defined.

Example parseGSV_first_message_run :
  parseGSV 1 gsv_short_first gsv_earlier_session GNSSData_default =
  Some ({| gsvTempSatellites := ∅; expectedGSVParts := 3 |},
        GNSSData_default, Ok tt).
Proof. vm_compute. reflexivity. Qed.

Example parseGSV_second_message_run :
  parseGSV 1 gsv_short_second gsv_earlier_session GNSSData_default =
  Some (gsv_earlier_session, GNSSData_default, Ok tt).
Proof. vm_compute. reflexivity. Qed.

(* ===================================================================== *)
(** ** parseGGA: every exit *)
(* ===================================================================== *)

Lemma gga_utc_short cd tokens d :
  Qt.size (tok tokens 1) < 6 -> gga_utc cd tokens d = (d, Throw utc_error).
Proof.
  intros H. unfold gga_utc, bind, when.
  destruct (Z.ltb_spec (Qt.size (tok tokens 1)) 6); [reflexivity | lia].
Qed.

Lemma gga_latitude_throw tokens d e :
  convertToDecimalDegrees (tok tokens 2) (tok tokens 3) = Throw e ->
  gga_latitude tokens d = (d, Throw e).
Proof. intros H. unfold gga_latitude, bind, call. rewrite H. reflexivity. Qed.

Lemma gga_longitude_throw tokens d e :
  convertToDecimalDegrees (tok tokens 4) (tok tokens 5) = Throw e ->
  gga_longitude tokens d = (d, Throw e).
Proof. intros H. unfold gga_longitude, bind, call. rewrite H. reflexivity. Qed.

Lemma gga_longitude_inf tokens d lon :
  convertToDecimalDegrees (tok tokens 4) (tok tokens 5) = Ok lon ->
  Double.eqb lon neg_qInf = true ->
  gga_longitude tokens d =
  (set_longitude lon d, Throw (InvalidDataError "Longitude conversion failed")).
Proof.
  intros H Hinf. unfold gga_longitude, bind, call, modify, get, when.
  rewrite H. simpl. rewrite Hinf. reflexivity.
Qed.

Lemma fix_label_cases (code : Z) :
  (exists label, fix_label code label) \/ (forall label, ~ fix_label code label).
Proof.
  destruct (Z.eq_dec code 0) as [ -> |H0]; [left; eexists; constructor|].
  destruct (Z.eq_dec code 1) as [ -> |H1]; [left; eexists; constructor|].
  destruct (Z.eq_dec code 2) as [ -> |H2]; [left; eexists; constructor|].
  destruct (Z.eq_dec code 4) as [ -> |H4]; [left; eexists; constructor|].
  right. intros label H. inversion H; congruence.
Qed.

Lemma gga_fix_type_label tokens d label :
  fix_label (fst (Qt.toInt (tok tokens 6))) label ->
  gga_fix_type tokens d = (set_fixType label d, Ok tt).
Proof.
  intros H. apply gga_fix_type_known.
  inversion H as [E|E|E|E]; auto 6.
Qed.

Lemma gga_fix_type_no_label tokens d :
  (forall label, ~ fix_label (fst (Qt.toInt (tok tokens 6))) label) ->
  gga_fix_type tokens d =
  (d, Throw (InvalidDataError
               ("Unknown fix quality code: "
                ++ Qt.number (fst (Qt.toInt (tok tokens 6)))))).
Proof.
  intros H. apply gga_fix_type_unknown; intros E;
    eapply H; rewrite E; constructor.
Qed.

Lemma gga_tail_spec tokens d :
  gga_tail tokens d =
  if 50 <? sat_count tokens
  then (set_satellites (sat_count tokens) d,
        Throw (InvalidDataError "Number of satellites out of range"))
  else if hdop_rejected tokens
  then (set_hdop (hdop_value tokens) (set_satellites (sat_count tokens) d),
        Throw (InvalidDataError "HDOP value out of range"))
  else (set_altitude (altitude_value tokens)
          (set_hdop (hdop_value tokens)
             (set_satellites (sat_count tokens) d)),
        if altitude_rejected tokens
        then Throw (InvalidDataError "Altitude out of realistic bounds")
        else Ok tt).
Proof.
  unfold gga_tail, bind, sat_count, hdop_rejected, altitude_rejected,
    hdop_value, altitude_value.
  rewrite gga_satellites_spec.
  destruct (50 <? _); [reflexivity|].
  rewrite gga_hdop_spec. destruct (_ || _); [reflexivity|].
  rewrite gga_altitude_spec. reflexivity.
Qed.

(** parseGGA leaves through exactly one of its exits. *)
Lemma parseGGA_exit cd tokens d :
  GGAExit cd tokens d (fst (parseGGA cd tokens d)) (snd (parseGGA cd tokens d)).
Proof.
  destruct (Z.lt_ge_cases (size tokens) 10) as [Hshort|Hsize].
  { unfold parseGGA, try_log_rethrow.
    rewrite (bind_Throw _ _ _ _ _ (gga_check_size_short tokens d Hshort)).
    apply exit_size. exact Hshort. }
  destruct (Z.lt_ge_cases (Qt.size (tok tokens 1)) 6) as [Htshort|Htime].
  { unfold parseGGA, try_log_rethrow.
    rewrite (bind_Ok _ _ _ _ _ (gga_check_size_ok tokens d Hsize)).
    rewrite (bind_Throw _ _ _ _ _ (gga_utc_short cd tokens d Htshort)).
    apply exit_utc; assumption. }
  rewrite (parseGGA_after_utc cd tokens d Hsize Htime).
  fold (with_time cd tokens d). unfold gga_after_utc.
  destruct (convertToDecimalDegrees (tok tokens 2) (tok tokens 3))
    as [lat|e] eqn:Hlat.
  2:{ rewrite (bind_Throw _ _ _ _ _ (gga_latitude_throw tokens _ e Hlat)).
      apply exit_latitude; assumption. }
  rewrite (bind_Ok _ _ _ _ _ (gga_latitude_ok tokens _ lat Hlat)).
  destruct (convertToDecimalDegrees (tok tokens 4) (tok tokens 5))
    as [lon|e] eqn:Hlon.
  2:{ rewrite (bind_Throw _ _ _ _ _ (gga_longitude_throw tokens _ e Hlon)).
      eapply exit_longitude; eassumption. }
  destruct (Double.eqb lon neg_qInf) eqn:Hinf.
  { rewrite (bind_Throw _ _ _ _ _ (gga_longitude_inf tokens _ lon Hlon Hinf)).
    eapply exit_longitude_inf; eassumption. }
  rewrite (bind_Ok _ _ _ _ _ (gga_longitude_ok tokens _ lon Hlon Hinf)).
  destruct (fix_label_cases (fst (Qt.toInt (tok tokens 6))))
    as [[label Hlabel]|Hnone].
  2:{ rewrite (bind_Throw _ _ _ _ _ (gga_fix_type_no_label tokens _ Hnone)).
      eapply exit_fix_type; eassumption. }
  rewrite (bind_Ok _ _ _ _ _ (gga_fix_type_label tokens _ label Hlabel)).
  change (bind (gga_satellites tokens) _) with (gga_tail tokens).
  rewrite gga_tail_spec.
  destruct (Z.ltb_spec 50 (sat_count tokens)) as [Hsat|Hsat].
  { eapply exit_satellites; eassumption. }
  destruct (hdop_rejected tokens) eqn:Hhdop.
  { eapply exit_hdop; eassumption. }
  destruct (altitude_rejected tokens) eqn:Halt.
  - eapply exit_altitude; eassumption.
  - eapply exit_return; eassumption.
Qed.

Lemma convertToDecimalDegrees_throws value direction e :
  convertToDecimalDegrees value direction = Throw e ->
  e = InvalidDataError "InvalidData: Empty latitude/longitude or direction" \/
  e = InvalidDataError "InvalidData: String too short for degrees" \/
  e = InvalidDataError "InvalidData: Conversion failed".
Proof.
  unfold convertToDecimalDegrees.
  destruct (isEmpty value || isEmpty direction); [intros [= <-]; auto|].
  destruct (Qt.size value <? _); [intros [= <-]; auto|].
  destruct (Qt.toInt _) as [degreePart okDeg].
  destruct (Qt.toDouble _) as [minutePart okMin].
  destruct (negb okDeg || negb okMin); [intros [= <-]; auto|].
  destruct (_ || _); discriminate.
Qed.

Ltac exits H :=
  match type of H with
  | GGAExit ?cd ?tokens ?d (fst ?p) (snd ?p) =>
      let d' := fresh "d'" in
      let r := fresh "r" in
      destruct p as [d' r]; simpl fst in *; simpl snd in *;
      inversion H; subst; clear H
  end.

(** X1. parseGGA returns normally exactly when the frame has 10 tokens or
    more, the time token has 6 characters or more, both coordinates
    convert, the longitude is not minus infinity, the fix quality is 0, 1,
    2 or 4, the satellite count reduced modulo 256 is at most 50, and
    neither range test of the HDOP and of the altitude holds. *)
Theorem parseGGA_returns_iff
  (cd : Qt.QDate) (tokens : list string) (d : GNSSData) :
  snd (parseGGA cd tokens d) = Ok tt <->
  (10 <= size tokens /\
   6 <= Qt.size (tok tokens 1) /\
   (exists lat,
      convertToDecimalDegrees (tok tokens 2) (tok tokens 3) = Ok lat) /\
   (exists lon,
      convertToDecimalDegrees (tok tokens 4) (tok tokens 5) = Ok lon /\
      Double.eqb lon neg_qInf = false) /\
   (fst (Qt.toInt (tok tokens 6)) = 0 \/ fst (Qt.toInt (tok tokens 6)) = 1 \/
    fst (Qt.toInt (tok tokens 6)) = 2 \/ fst (Qt.toInt (tok tokens 6)) = 4) /\
   fst (Qt.toInt (tok tokens 7)) mod 256 <= 50 /\
   Double.leb (fst (Qt.toDouble (tok tokens 8))) (Double.of_int 0)
     || Double.gtb (fst (Qt.toDouble (tok tokens 8))) (Double.of_int 50)
     = false /\
   Double.ltb (fst (Qt.toDouble (tok tokens 9))) (Double.of_int (-500))
     || Double.gtb (fst (Qt.toDouble (tok tokens 9))) (Double.of_int 10000)
     = false).
Proof.
  pose proof (parseGGA_exit cd tokens d) as H.
  split.
  - intros Hok. exits H; try discriminate.
    repeat split; eauto.
    match goal with Hl : fix_label _ _ |- _ => inversion Hl; auto end.
  - intros (Hsize & Htime & [lat Hlat] & (lon & Hlon & Hinf) & Hcode
            & Hsat & Hhdop & Halt).
    assert (Hlabel : exists label, fix_label (fst (Qt.toInt (tok tokens 6))) label).
    { destruct Hcode as [E|[E|[E|E]]]; rewrite E; eexists; constructor. }
    destruct Hlabel as [label Hlabel].
    fold (sat_count tokens) in Hsat. fold (hdop_value tokens) in Hhdop.
    fold (hdop_rejected tokens) in Hhdop.
    fold (altitude_value tokens) in Halt. fold (altitude_rejected tokens) in Halt.
    exits H; try reflexivity; try lia; try congruence.
    + match goal with Hn : forall l, ~ fix_label _ l |- _ =>
        exfalso; exact (Hn label Hlabel) end.
Qed.

(** X2. When parseGGA returns normally the record holds the two converted
    coordinates, the satellite count modulo 256 (between 0 and 50), the
    HDOP and the altitude as [toDouble] read them, the label of the fix
    quality, and the timestamp of the sentence when its time is valid (the
    timestamp it had otherwise). *)
Theorem parseGGA_returned_record
  (cd : Qt.QDate) (tokens : list string) (d : GNSSData) :
  snd (parseGGA cd tokens d) = Ok tt ->
  convertToDecimalDegrees (tok tokens 2) (tok tokens 3)
    = Ok (latitude (fst (parseGGA cd tokens d))) /\
  convertToDecimalDegrees (tok tokens 4) (tok tokens 5)
    = Ok (longitude (fst (parseGGA cd tokens d))) /\
  satellites (fst (parseGGA cd tokens d))
    = fst (Qt.toInt (tok tokens 7)) mod 256 /\
  0 <= satellites (fst (parseGGA cd tokens d)) <= 50 /\
  hdop (fst (parseGGA cd tokens d)) = fst (Qt.toDouble (tok tokens 8)) /\
  altitude (fst (parseGGA cd tokens d)) = fst (Qt.toDouble (tok tokens 9)) /\
  fix_label (fst (Qt.toInt (tok tokens 6)))
            (fixType (fst (parseGGA cd tokens d))) /\
  timestamp (fst (parseGGA cd tokens d)) =
    (if Qt.isValid (Qt.mkQTime (fst (Qt.toInt (hour_group tokens)))
                               (fst (Qt.toInt (minute_group tokens)))
                               (fst (Qt.toInt (second_group tokens))))
     then Some (Qt.mkQDateTime cd
                  (Qt.mkQTime (fst (Qt.toInt (hour_group tokens)))
                              (fst (Qt.toInt (minute_group tokens)))
                              (fst (Qt.toInt (second_group tokens)))))
     else timestamp d).
Proof.
  pose proof (parseGGA_exit cd tokens d) as H.
  intros Hok. exits H; try discriminate. simpl.
  repeat split; auto.
  - unfold sat_count. apply Z.mod_pos_bound. lia.
  - unfold with_time.
    change (Qt.mkQTime (fst (Qt.toInt (hour_group tokens)))
                       (fst (Qt.toInt (minute_group tokens)))
                       (fst (Qt.toInt (second_group tokens))))
      with (gga_time tokens).
    destruct (Qt.isValid (gga_time tokens)); reflexivity.
Qed.

Lemma parseGGA_returned_record_witness :
  satellites (fst (parseGGA 0 sample_tokens GNSSData_default)) =
  fst (Qt.toInt (tok sample_tokens 7)) mod 256.
Proof.
  apply (parseGGA_returned_record 0 sample_tokens GNSSData_default).
  vm_compute. reflexivity.
Defined.

(** X3. The exception parseGGA throws is a [ParsingError] exactly when
    the frame has fewer than 10 tokens; every exception it throws on a
    longer frame is an [InvalidDataError]. *)
Theorem parseGGA_structural_iff
  (cd : Qt.QDate) (tokens : list string) (d : GNSSData) :
  (raises (snd (parseGGA cd tokens d)) Structural <-> size tokens < 10) /\
  (raises (snd (parseGGA cd tokens d)) Semantic <->
     10 <= size tokens /\ snd (parseGGA cd tokens d) <> Ok tt).
Proof.
  pose proof (parseGGA_exit cd tokens d) as H.
  exits H;
    try match goal with Hc : convertToDecimalDegrees _ _ = Throw _ |- _ =>
          pose proof (convertToDecimalDegrees_throws _ _ _ Hc)
            as [ -> | [ -> | -> ] ]
        end;
    (split; split;
     [ intros Hr; first [ apply raises_Throw in Hr; simpl in Hr;
                          first [lia | discriminate]
                        | exfalso; exact (raises_Ok _ _ Hr) ]
     | intros Hs; first [ apply raises_Throw; reflexivity | lia ]
     | intros Hr; first [ apply raises_Throw in Hr; simpl in Hr;
                          first [discriminate | split; [lia | discriminate]]
                        | exfalso; exact (raises_Ok _ _ Hr) ]
     | intros [Hs Hne]; first [ lia | apply raises_Throw; reflexivity
                              | congruence ] ]).
Qed.

(** X4. parseGGA never writes the average SNR, the VDOP or the satellite
    map of the record, whatever the tokens and whether it returns or
    throws. *)
Theorem parseGGA_untouched_fields
  (cd : Qt.QDate) (tokens : list string) (d : GNSSData) :
  snrAvg (fst (parseGGA cd tokens d)) = snrAvg d /\
  vdop (fst (parseGGA cd tokens d)) = vdop d /\
  satMap (fst (parseGGA cd tokens d)) = satMap d.
Proof.
  pose proof (parseGGA_exit cd tokens d) as H.
  exits H; simpl; unfold with_time;
    destruct (Qt.isValid (gga_time tokens)); simpl; auto.
Qed.

(** X5. Each of the last three fields is stored before it is tested: when
    parseGGA throws for the satellite count, the HDOP or the altitude, the
    record holds the rejected value. *)
Theorem parseGGA_stores_rejected_value
  (cd : Qt.QDate) (tokens : list string) (d : GNSSData) :
  (snd (parseGGA cd tokens d)
     = Throw (InvalidDataError "Number of satellites out of range") ->
   satellites (fst (parseGGA cd tokens d))
     = fst (Qt.toInt (tok tokens 7)) mod 256 /\
   50 < satellites (fst (parseGGA cd tokens d)) < 256) /\
  (snd (parseGGA cd tokens d)
     = Throw (InvalidDataError "HDOP value out of range") ->
   hdop (fst (parseGGA cd tokens d)) = fst (Qt.toDouble (tok tokens 8)) /\
   Double.leb (hdop (fst (parseGGA cd tokens d))) (Double.of_int 0)
     || Double.gtb (hdop (fst (parseGGA cd tokens d))) (Double.of_int 50)
     = true) /\
  (snd (parseGGA cd tokens d)
     = Throw (InvalidDataError "Altitude out of realistic bounds") ->
   altitude (fst (parseGGA cd tokens d)) = fst (Qt.toDouble (tok tokens 9)) /\
   Double.ltb (altitude (fst (parseGGA cd tokens d))) (Double.of_int (-500))
     || Double.gtb (altitude (fst (parseGGA cd tokens d)))
                   (Double.of_int 10000)
     = true).
Proof.
  pose proof (parseGGA_exit cd tokens d) as H.
  exits H;
    try match goal with Hc : convertToDecimalDegrees _ _ = Throw _ |- _ =>
          pose proof (convertToDecimalDegrees_throws _ _ _ Hc)
            as [ -> | [ -> | -> ] ]
        end;
    (split; [|split]); intros He; try discriminate He; simpl.
  - split; [reflexivity|]. split; [assumption|].
    unfold sat_count. apply Z.mod_pos_bound. lia.
  - split; [reflexivity|]. assumption.
  - split; [reflexivity|]. assumption.
Qed.

Lemma parseGGA_stores_rejected_value_witness :
  satellites
    (fst (parseGGA 0 (Qt.split_comma (gga_line "51" "0.9" "545.4"))
            GNSSData_default))
  = fst (Qt.toInt (tok (Qt.split_comma (gga_line "51" "0.9" "545.4")) 7))
    mod 256 /\
  50 < satellites
         (fst (parseGGA 0 (Qt.split_comma (gga_line "51" "0.9" "545.4"))
                 GNSSData_default)) < 256.
Proof.
  apply (parseGGA_stores_rejected_value 0
           (Qt.split_comma (gga_line "51" "0.9" "545.4")) GNSSData_default).
  vm_compute. reflexivity.
Defined.

(** X6. On a frame of 10 tokens or more whose time token has fewer than 6
    characters parseGGA throws the [InvalidDataError] of the time and
    leaves the record as it was: nothing is read after the time token. *)
Theorem parseGGA_short_time
  (cd : Qt.QDate) (tokens : list string) (d : GNSSData) :
  10 <= size tokens ->
  Qt.size (tok tokens 1) < 6 ->
  parseGGA cd tokens d =
  (d, Throw (InvalidDataError "Invalid UTC time in GGA frame")).
Proof.
  intros Hsize Htime.
  pose proof (parseGGA_exit cd tokens d) as H.
  exits H; try lia. reflexivity.
Qed.

Lemma parseGGA_short_time_witness :
  parseGGA 0 ["$GPGGA"; "1235"; "4807.038"; "N"; "11131.000"; "E"; "1"; "08";
              "0.9"; "545.4"] GNSSData_default =
  (GNSSData_default, Throw (InvalidDataError "Invalid UTC time in GGA frame")).
Proof.
  apply parseGGA_short_time.
  - vm_compute. discriminate.
  - vm_compute. reflexivity.
Defined.

(** X7. On a frame of 10 tokens or more with a time token of 6 characters
    or more, an empty latitude value or an empty latitude hemisphere makes
    parseGGA throw the "Empty latitude/longitude or direction" error
    before any of the position, the fix type, the satellite count, the
    HDOP and the altitude is written. *)
Theorem parseGGA_empty_latitude
  (cd : Qt.QDate) (tokens : list string) (d : GNSSData) :
  10 <= size tokens ->
  6 <= Qt.size (tok tokens 1) ->
  tok tokens 2 = "" \/ tok tokens 3 = "" ->
  snd (parseGGA cd tokens d) =
    Throw (InvalidDataError
             "InvalidData: Empty latitude/longitude or direction") /\
  latitude (fst (parseGGA cd tokens d)) = latitude d /\
  longitude (fst (parseGGA cd tokens d)) = longitude d /\
  fixType (fst (parseGGA cd tokens d)) = fixType d /\
  satellites (fst (parseGGA cd tokens d)) = satellites d /\
  hdop (fst (parseGGA cd tokens d)) = hdop d /\
  altitude (fst (parseGGA cd tokens d)) = altitude d.
Proof.
  intros Hsize Htime Hempty.
  assert (Hconv : convertToDecimalDegrees (tok tokens 2) (tok tokens 3) =
                  Throw (InvalidDataError
                           "InvalidData: Empty latitude/longitude or direction")).
  { unfold convertToDecimalDegrees.
    destruct Hempty as [ -> | -> ]; [reflexivity|].
    rewrite orb_true_r. reflexivity. }
  pose proof (parseGGA_exit cd tokens d) as H.
  exits H; try lia; try congruence.
  assert (e = InvalidDataError
                "InvalidData: Empty latitude/longitude or direction")
    by congruence.
  subst e. unfold with_time.
  destruct (Qt.isValid (gga_time tokens)); simpl; auto 10.
Qed.

Lemma parseGGA_empty_latitude_witness :
  snd (parseGGA 0 ["$GPGGA"; "094500"; ""; ""; ""; ""; "0"; "00"; "99.9"; "";
                   ""; ""; ""; ""; "*48"] GNSSData_default) =
  Throw (InvalidDataError "InvalidData: Empty latitude/longitude or direction").
Proof.
  apply (parseGGA_empty_latitude 0
           ["$GPGGA"; "094500"; ""; ""; ""; ""; "0"; "00"; "99.9"; "";
            ""; ""; ""; ""; "*48"] GNSSData_default).
  - vm_compute. discriminate.
  - vm_compute. discriminate.
  - left. reflexivity.
Defined.

(** X8. The test of the longitude against minus infinity can be reached:
    when the longitude converts to minus infinity parseGGA throws
    "Longitude conversion failed", after it has written both coordinates
    and before it writes the fix type. *)
Theorem parseGGA_longitude_minus_infinity
  (cd : Qt.QDate) (tokens : list string) (d : GNSSData) (lat lon : double) :
  10 <= size tokens ->
  6 <= Qt.size (tok tokens 1) ->
  convertToDecimalDegrees (tok tokens 2) (tok tokens 3) = Ok lat ->
  convertToDecimalDegrees (tok tokens 4) (tok tokens 5) = Ok lon ->
  Double.eqb lon neg_qInf = true ->
  snd (parseGGA cd tokens d) =
    Throw (InvalidDataError "Longitude conversion failed") /\
  latitude (fst (parseGGA cd tokens d)) = lat /\
  longitude (fst (parseGGA cd tokens d)) = lon /\
  fixType (fst (parseGGA cd tokens d)) = fixType d.
Proof.
  intros Hsize Htime Hlat Hlon Hinf.
  pose proof (parseGGA_exit cd tokens d) as H.
  exits H; try lia; try congruence.
  assert (lat0 = lat) by congruence. assert (lon0 = lon) by congruence.
  subst. unfold with_time.
  destruct (Qt.isValid (gga_time tokens)); simpl; auto.
Qed.

Lemma parseGGA_longitude_minus_infinity_witness :
  snd (parseGGA 0 longitude_inf_tokens GNSSData_default) =
    Throw (InvalidDataError "Longitude conversion failed") /\
  latitude (fst (parseGGA 0 longitude_inf_tokens GNSSData_default)) =
    S754_finite false 6771907948439824 (-47) /\
  longitude (fst (parseGGA 0 longitude_inf_tokens GNSSData_default)) =
    neg_qInf /\
  fixType (fst (parseGGA 0 longitude_inf_tokens GNSSData_default)) =
    fixType GNSSData_default.
Proof.
  apply (parseGGA_longitude_minus_infinity 0 longitude_inf_tokens
           GNSSData_default).
  - vm_compute. discriminate.
  - vm_compute. discriminate.
  - vm_compute. reflexivity.
  - vm_compute. reflexivity.
  - vm_compute. reflexivity.
Defined.



(** X10. The satellite count of the record stays a [u_int8_t] value:
    parseGGA leaves it as it was or stores a count reduced modulo 256. *)
Theorem parseGGA_satellites_u8
  (cd : Qt.QDate) (tokens : list string) (d : GNSSData) :
  0 <= satellites d < 256 ->
  0 <= satellites (fst (parseGGA cd tokens d)) < 256 /\
  (satellites (fst (parseGGA cd tokens d)) = satellites d \/
   satellites (fst (parseGGA cd tokens d))
     = fst (Qt.toInt (tok tokens 7)) mod 256).
Proof.
  intros Hd.
  assert (Hmod : 0 <= sat_count tokens < 256)
    by (unfold sat_count; apply Z.mod_pos_bound; lia).
  pose proof (parseGGA_exit cd tokens d) as H.
  exits H; simpl; unfold with_time;
    try (destruct (Qt.isValid (gga_time tokens)); simpl);
    auto.
Qed.

Lemma parseGGA_satellites_u8_witness :
  0 <= satellites
         (fst (parseGGA 0 (Qt.split_comma (gga_line "300" "0.9" "545.4"))
                 GNSSData_default)) < 256.
Proof.
  apply (parseGGA_satellites_u8 0
           (Qt.split_comma (gga_line "300" "0.9" "545.4")) GNSSData_default).
  vm_compute. split; [intros [=] | reflexivity].
Defined.

(* ===================================================================== *)
(** ** convertToDecimalDegrees: the hemisphere *)
(* ===================================================================== *)

(** X11. The hemisphere is not validated: every non-empty hemisphere
    string other than "N", "S" and "W" (a lower-case letter, a longer
    string, any other text) is treated as "E", with a degree width of 3
    and no negation. *)
Theorem convertToDecimalDegrees_unknown_hemisphere (value direction : string) :
  direction <> "" -> direction <> "N" -> direction <> "S" ->
  direction <> "W" ->
  convertToDecimalDegrees value direction = convertToDecimalDegrees value "E".
Proof.
  intros Hempty HN HS HW. unfold convertToDecimalDegrees, degDigits.
  apply isEmpty_false in Hempty. rewrite Hempty.
  apply String.eqb_neq in HN, HS, HW. rewrite HN, HS, HW.
  reflexivity.
Qed.

Lemma convertToDecimalDegrees_unknown_hemisphere_witness :
  convertToDecimalDegrees "4807.038" "n" = convertToDecimalDegrees "4807.038" "E".
Proof.
  apply convertToDecimalDegrees_unknown_hemisphere; discriminate.
Defined.

(** X12. The message of every exception convertToDecimalDegrees throws
    already starts with "InvalidData: ", and [InvalidDataError] prepends
    the same prefix: [what()] carries it twice. *)
Theorem convertToDecimalDegrees_what_prefix (value direction : string)
  (e : NMEAException) :
  convertToDecimalDegrees value direction = Throw e ->
  exists msg, e = InvalidDataError ("InvalidData: " ++ msg) /\
              what e = "InvalidData: InvalidData: " ++ msg.
Proof.
  intros H. apply convertToDecimalDegrees_throws in H.
  destruct H as [ -> | [ -> | -> ] ]; eexists; split; reflexivity.
Qed.

Lemma convertToDecimalDegrees_what_prefix_witness :
  exists msg,
    InvalidDataError "InvalidData: Empty latitude/longitude or direction"
      = InvalidDataError ("InvalidData: " ++ msg) /\
    what (InvalidDataError "InvalidData: Empty latitude/longitude or direction")
      = "InvalidData: InvalidData: " ++ msg.
Proof.
  apply (convertToDecimalDegrees_what_prefix "" "N").
  vm_compute. reflexivity.
Defined.

(* ===================================================================== *)
(** ** parseGSV: which calls return, and what the loop reads *)
(* ===================================================================== *)

Lemma gsv_step_first tokens sats :
  8 <= size tokens ->
  gsv_step tokens (Running 4 sats) = Running 4 (first_tuple_upsert tokens sats).
Proof.
  intros Hsize. unfold gsv_step, gsv_body, first_tuple_upsert, tuple_info.
  destruct (Z.ltb_spec (4 + 3) (size tokens)) as [_|]; [|lia].
  destruct (Z.leb_spec (size tokens) (4 + 3)) as [|_]; [lia|]. simpl.
  destruct (Qt.toInt (tok tokens 4)) as [id okId].
  destruct (Qt.toDouble (tok tokens (4 + 1))) as [elev okElev].
  destruct (Qt.toDouble (tok tokens (4 + 2))) as [azim okAzim].
  destruct (Qt.toDouble (tok tokens (4 + 3))) as [snr' okSnr].
  simpl. destruct okId; simpl; [|reflexivity].
  destruct (Z.leb_spec id 0); destruct (Z.ltb_spec 0 id); try lia; reflexivity.
Qed.

Lemma first_tuple_upsert_again tokens sats :
  first_tuple_upsert tokens (first_tuple_upsert tokens sats)
  = first_tuple_upsert tokens sats.
Proof.
  unfold first_tuple_upsert.
  destruct (_ && _); [apply insert_insert_eq | reflexivity].
Qed.

Lemma gsv_loop_first_tuple n tokens g :
  8 <= size tokens ->
  gsv_loop (S n) tokens g =
  Running 4 (first_tuple_upsert tokens (gsvTempSatellites (gsv_header tokens g))).
Proof.
  intros Hsize. induction n as [|n IH].
  - unfold gsv_loop. simpl. apply gsv_step_first. exact Hsize.
  - rewrite gsv_loop_S, IH, gsv_step_first by exact Hsize.
    rewrite first_tuple_upsert_again. reflexivity.
Qed.

(** X13. With 8 tokens or more, the only tuple parseGSV ever reads is the
    one at index 4: after any positive number of turns of the loop the map
    is the map the loop was entered with, with the entry of that tuple
    upserted when its first field is a positive integer; the tuples at
    index 8 and beyond are never added. *)
Theorem parseGSV_reads_first_tuple_only
  (tokens : list string) (g : GSVSession) (n : nat) :
  8 <= size tokens ->
  gsvTempSatellites (gsv_session (S n) tokens g) =
    (if snd (Qt.toInt (tok tokens 4)) && (0 <? fst (Qt.toInt (tok tokens 4)))
     then <[fst (Qt.toInt (tok tokens 4)) := tuple_info tokens 4]>
            (gsvTempSatellites (gsv_header tokens g))
     else gsvTempSatellites (gsv_header tokens g)).
Proof.
  intros Hsize.
  change (gsvTempSatellites (gsv_session (S n) tokens g))
    with (loop_sats (gsv_loop (S n) tokens g)).
  rewrite gsv_loop_first_tuple by exact Hsize. reflexivity.
Qed.

Lemma parseGSV_reads_first_tuple_only_witness :
  gsvTempSatellites (gsv_session 1000 gsv_two_tuples gsv_earlier_session) !! 2
    = Some (tuple_info gsv_two_tuples 4) /\
  gsvTempSatellites (gsv_session 1000 gsv_two_tuples gsv_earlier_session) !! 4
    = None.
Proof.
  rewrite (parseGSV_reads_first_tuple_only gsv_two_tuples gsv_earlier_session
             999).
  - vm_compute. split; reflexivity.
  - vm_compute. discriminate.
Defined.

(** X14. parseGSV returns exactly on the token lists with fewer than 8
    tokens, and a call that returns has read no tuple: it throws the
    [ParsingError] with the statics untouched (fewer than 4 tokens), or
    returns normally with the statics as the part before the loop left
    them (4 to 7 tokens). The record is never written. *)
Theorem parseGSV_returns_iff
  (tokens : list string) (g : GSVSession) (d : GNSSData) :
  ((exists fuel, parseGSV fuel tokens g d <> None) <-> size tokens < 8) /\
  (forall fuel out,
     parseGSV fuel tokens g d = Some out ->
     out = (if size tokens <? 4
            then (g, d, Throw (ParsingError
                                 "GSV frame too short: expected >=4 fields"))
            else (gsv_header tokens g, d, Ok tt))).
Proof.
  split.
  - split.
    + intros [fuel Hret].
      destruct (Z.lt_ge_cases (size tokens) 8) as [|Hsize]; [assumption|].
      exfalso. apply Hret. unfold parseGSV, try_log_rethrow.
      destruct (Z.ltb_spec (size tokens) 4); [lia|].
      destruct (gsv_loop_stuck fuel tokens g Hsize) as [sats ->]. reflexivity.
    + intros Hsize. exists 1%nat.
      destruct (Z.lt_ge_cases (size tokens) 4) as [Hshort|Hlong].
      * unfold parseGSV, try_log_rethrow.
        destruct (Z.ltb_spec (size tokens) 4); [discriminate | lia].
      * rewrite parseGSV_returns_without_tuple by lia. discriminate.
  - intros fuel out. unfold parseGSV, try_log_rethrow.
    destruct (Z.ltb_spec (size tokens) 4) as [Hshort|Hlong];
      [intros [= <-]; reflexivity|].
    destruct fuel as [|n]; [discriminate|].
    destruct (Z.lt_ge_cases (size tokens) 8) as [Hsize|Hsize].
    + rewrite gsv_loop_exits by exact Hsize. intros [= <-].
      unfold gsv_session. rewrite gsv_loop_exits by exact Hsize. simpl.
      destruct (gsv_header tokens g). reflexivity.
    + destruct (gsv_loop_stuck (S n) tokens g Hsize) as [sats ->].
      discriminate.
Qed.

(* ===================================================================== *)
(** ** parseLine *)
(* ===================================================================== *)

Lemma split_comma_length (s : string) :
  List.length (Qt.split_comma s) = S (count_commas s).
Proof.
  induction s as [|c r IH]; [reflexivity|]. simpl.
  destruct (Ascii.eqb c ","%char); simpl; [rewrite IH; reflexivity|].
  destruct (Qt.split_comma r) as [|h t]; [discriminate IH|].
  simpl in *. exact IH.
Qed.

Lemma size_split_comma (s : string) :
  size (Qt.split_comma s) = Z.of_nat (count_commas s) + 1.
Proof. unfold size. rewrite split_comma_length. lia. Qed.

Lemma DataType_GGA line :
  Qt.startsWith line "$GPGGA" = true -> DataType line = GGA.
Proof. intros H. unfold DataType. rewrite H. reflexivity. Qed.

(** X15. For a line that starts with "$GPGGA" the dispatcher always
    returns, leaves the statics of parseGSV untouched, and hands back the
    outcome of parseGGA on the comma-separated fields; that outcome is a
    [ParsingError] exactly when the line has fewer than 9 commas. *)
Theorem parseLine_GGA_field_count
  (fuel : nat) (cd : Qt.QDate) (line : string) (g : GSVSession) (d : GNSSData) :
  Qt.startsWith line "$GPGGA" = true ->
  parseLine fuel cd line g d =
    Some (g, fst (parseGGA cd (Qt.split_comma line) d),
          snd (parseGGA cd (Qt.split_comma line) d)) /\
  (raises (snd (parseGGA cd (Qt.split_comma line) d)) Structural <->
     (count_commas line < 9)%nat).
Proof.
  intros Hprefix. split.
  - unfold parseLine. rewrite (DataType_GGA line Hprefix).
    destruct (parseGGA cd (Qt.split_comma line) d). reflexivity.
  - pose proof (size_split_comma line) as Hsize.
    pose proof (parseGGA_exit cd (Qt.split_comma line) d) as H.
    exits H;
      try match goal with Hc : convertToDecimalDegrees _ _ = Throw _ |- _ =>
            pose proof (convertToDecimalDegrees_throws _ _ _ Hc)
              as [ -> | [ -> | -> ] ]
          end;
      (split;
       [ intros Hr; first [ apply raises_Throw in Hr; simpl in Hr;
                            first [lia | discriminate]
                          | exfalso; exact (raises_Ok _ _ Hr) ]
       | intros Hs; first [ apply raises_Throw; reflexivity | lia ] ]).
Qed.

Lemma parseLine_GGA_field_count_witness :
  parseLine 0 0 "$GPGGA,123519,4807.038" GSVSession_initial GNSSData_default =
  Some (GSVSession_initial,
        fst (parseGGA 0 (Qt.split_comma "$GPGGA,123519,4807.038")
               GNSSData_default),
        snd (parseGGA 0 (Qt.split_comma "$GPGGA,123519,4807.038")
               GNSSData_default)).
Proof.
  apply (parseLine_GGA_field_count 0 0 "$GPGGA,123519,4807.038"
           GSVSession_initial GNSSData_default).
  vm_compute. reflexivity.
Defined.

(** X16. For a line the classifier takes for a GSV sentence the comma
    count decides what the dispatcher does: fewer than 3 commas, a
    [ParsingError] with nothing changed; 3 to 6 commas, a normal return
    with the record unchanged and the statics as the part of parseGSV
    before its loop leaves them; 7 commas or more, no return, whatever the
    number of turns given to the loop. *)
Theorem parseLine_GSV_field_count
  (cd : Qt.QDate) (line : string) (g : GSVSession) (d : GNSSData) :
  DataType line = GSV ->
  ((count_commas line < 3)%nat ->
     forall fuel,
       parseLine fuel cd line g d =
       Some (g, d,
             Throw (ParsingError "GSV frame too short: expected >=4 fields"))) /\
  ((3 <= count_commas line < 7)%nat ->
     forall fuel,
       parseLine (S fuel) cd line g d =
       Some (gsv_header (Qt.split_comma line) g, d, Ok tt)) /\
  ((7 <= count_commas line)%nat ->
     forall fuel, parseLine fuel cd line g d = None).
Proof.
  intros Hgsv. pose proof (size_split_comma line) as Hsize.
  unfold parseLine. rewrite Hgsv. repeat split.
  - intros Hc fuel. unfold parseGSV, try_log_rethrow.
    destruct (Z.ltb_spec (size (Qt.split_comma line)) 4); [reflexivity | lia].
  - intros Hc fuel. apply parseGSV_returns_without_tuple. lia.
  - intros Hc fuel. unfold parseGSV, try_log_rethrow.
    destruct (Z.ltb_spec (size (Qt.split_comma line)) 4); [lia|].
    destruct (gsv_loop_stuck fuel (Qt.split_comma line) g) as [sats ->];
      [lia | reflexivity].
Qed.

Lemma parseLine_GSV_field_count_witness :
  parseLine 1000 0 "$GPGSV,1,1,1,02,65,290,42" GSVSession_initial
    GNSSData_default = None.
Proof.
  apply (parseLine_GSV_field_count 0 "$GPGSV,1,1,1,02,65,290,42"
           GSVSession_initial GNSSData_default).
  - vm_compute. reflexivity.
  - vm_compute. lia.
Defined.

(** X17. The dispatcher keeps the two parsers apart and ignores every
    other line: when it returns, a line taken for a GGA sentence has left
    the statics of parseGSV as they were, a line taken for a GSV sentence
    has left the record as it was, and a line that starts with neither
    "$GPGGA" nor "$GPGSV" has changed nothing and raised nothing. *)
Theorem parseLine_isolation
  (fuel : nat) (cd : Qt.QDate) (line : string) (g g' : GSVSession)
  (d d' : GNSSData) (r : result unit) :
  parseLine fuel cd line g d = Some (g', d', r) ->
  (Qt.startsWith line "$GPGGA" = true -> g' = g) /\
  (Qt.startsWith line "$GPGGA" = false ->
   Qt.startsWith line "$GPGSV" = true -> d' = d) /\
  (Qt.startsWith line "$GPGGA" = false ->
   Qt.startsWith line "$GPGSV" = false -> g' = g /\ d' = d /\ r = Ok tt).
Proof.
  unfold parseLine, DataType.
  destruct (Qt.startsWith line "$GPGGA").
  - destruct (parseGGA cd (Qt.split_comma line) d) as [d1 r1].
    intros [= <- <- <-]. repeat split; intros; congruence.
  - destruct (Qt.startsWith line "$GPGSV").
    + unfold parseGSV, try_log_rethrow.
      destruct (size (Qt.split_comma line) <? 4).
      * intros [= <- <- <-]. repeat split; intros; congruence.
      * destruct (gsv_loop fuel (Qt.split_comma line) g); [discriminate|].
        intros [= <- <- <-]. repeat split; intros; congruence.
    + intros [= <- <- <-]. repeat split; intros; congruence.
Qed.

Lemma parseLine_isolation_witness :
  GSVSession_initial = GSVSession_initial /\
  GNSSData_default = GNSSData_default /\ Ok tt = Ok tt.
Proof.
  apply (parseLine_isolation 0 0 "$GPRMC,130559.00,A" GSVSession_initial
           GSVSession_initial GNSSData_default GNSSData_default (Ok tt)).
  - vm_compute. reflexivity.
  - vm_compute. reflexivity.
  - vm_compute. reflexivity.
Defined.

(* ===================================================================== *)
(** ** parseGGA and the record it is given *)
(* ===================================================================== *)

Lemma fix_label_functional code l1 l2 :
  fix_label code l1 -> fix_label code l2 -> l1 = l2.
Proof. intros H1 H2. inversion H1; subst; inversion H2; reflexivity. Qed.

Ltac exit_clash :=
  first
    [ reflexivity
    | lia
    | congruence
    | match goal with
      | Hn : forall l, ~ fix_label ?c l, Hl : fix_label ?c _ |- _ =>
          exfalso; exact (Hn _ Hl)
      end ].

(** Two runs of parseGGA on the same tokens leave through the same exit:
    the outcome is the same, and so is every value the exit stores. *)
Lemma GGAExit_outcome cd tokens d1 d2 d1' d2' r1 r2 :
  GGAExit cd tokens d1 d1' r1 -> GGAExit cd tokens d2 d2' r2 -> r1 = r2.
Proof.
  intros H1 H2. inversion H1; subst; inversion H2; subst; exit_clash.
Qed.

(** X18. Whether parseGGA returns or throws, and what it throws, depends
    on the tokens only, not on the record it is given. *)
Theorem parseGGA_outcome_independent_of_record
  (cd : Qt.QDate) (tokens : list string) (d1 d2 : GNSSData) :
  snd (parseGGA cd tokens d1) = snd (parseGGA cd tokens d2).
Proof.
  eapply GGAExit_outcome; apply parseGGA_exit.
Qed.

Lemma GGAExit_again cd tokens d d' d'' r r' :
  GGAExit cd tokens d d' r -> GGAExit cd tokens d' d'' r' -> d'' = d'.
Proof.
  intros H1 H2.
  inversion H1; subst; inversion H2; subst; try exit_clash;
    repeat match goal with
    | Ha : convertToDecimalDegrees ?v ?h = Ok ?x,
      Hb : convertToDecimalDegrees ?v ?h = Ok ?y |- _ =>
        assert (y = x) by congruence; subst y; clear Hb
    | Ha : fix_label ?c ?x, Hb : fix_label ?c ?y |- _ =>
        pose proof (fix_label_functional _ _ _ Hb Ha); subst y; clear Hb
    end;
    unfold with_time; destruct (Qt.isValid (gga_time tokens));
    destruct d; reflexivity.
Qed.

(** X19. parseGGA is idempotent on the record: run a second time on the
    same tokens, on the record the first run left, it leaves that record
    unchanged and ends the same way. *)
Theorem parseGGA_idempotent
  (cd : Qt.QDate) (tokens : list string) (d : GNSSData) :
  parseGGA cd tokens (fst (parseGGA cd tokens d)) = parseGGA cd tokens d.
Proof.
  pose proof (parseGGA_exit cd tokens d) as H1.
  pose proof (parseGGA_exit cd tokens (fst (parseGGA cd tokens d))) as H2.
  pose proof (GGAExit_again _ _ _ _ _ _ _ H1 H2) as Hrec.
  pose proof (GGAExit_outcome _ _ _ _ _ _ _ _ H1 H2) as Hout.
  destruct (parseGGA cd tokens (fst (parseGGA cd tokens d))) as [d2 r2].
  destruct (parseGGA cd tokens d) as [d1 r1].
  simpl in *. congruence.
Qed.
